(** * Switch Pro controller drivers: report codec, lifecycle and feature pipeline

    Shallow embedding of the two driver variants of the repository:
    - [Basic]  : switch_pro_driver.cpp (decode and print only),
    - [Neural] : switch_pro_neural_driver.cpp (decode, feature vectors,
                 bounded queue, processing loop, rumble and LED commands),
    - [Engine] : its NeuralGestureProcessor and NeuralEngineWrapper,
    - [Facade] : its initialize, start, stop and main.

    Integers of the source are [Z] with their wrap-around written out,
    [double] is IEEE 754 binary64 through the Standard Library's executable
    specification [SpecFloat] (round to nearest, ties to even). *)

From Stdlib Require Import ZArith List Bool Lia.
From Stdlib Require String.
Import String.StringSyntax.
Local Open Scope string_scope.
From Stdlib Require Import PrimFloat FloatOps SpecFloat.
Import ListNotations.
Local Open Scope list_scope.
Local Open Scope Z_scope.

(** ** C++ [double] *)

Module Double.

Definition double : Type := spec_float.

Definition prec : Z := 53.
Definition emax : Z := 1024.

(** Conversion of an integer to [double] (exact below 2^53, rounded above). *)
Definition of_Z (z : Z) : double := binary_normalize prec emax z 0 false.

Definition div (x y : double) : double := SFdiv prec emax x y.
Definition mul (x y : double) : double := SFmul prec emax x y.
Definition add (x y : double) : double := SFadd prec emax x y.
Definition sqrt (x : double) : double := SFsqrt prec emax x.

(** [x <= y] and [x < y] of C++ (false as soon as one side is NaN). *)
Definition leb (x y : double) : bool := SFleb x y.
Definition ltb (x y : double) : bool := SFltb x y.

(** The literals of the source. *)
Definition zero : double := S754_zero false.                       (* 0.0 *)
Definition one : double := S754_finite false 4503599627370496 (-52).  (* 1.0 *)
Definition half : double := S754_finite false 4503599627370496 (-53). (* 0.5 *)
Definition d255 : double := of_Z 255.                              (* 255.0 *)
Definition d1000000 : double := of_Z 1000000.                      (* 1000000.0 *)

(** The double nearest to 0.016. *)
Definition d0_016 : double := S754_finite false 4611686018427388 (-58).

End Double.

Import Double.

(** ** Machine integers and report buffers *)

Definition uint8 (z : Z) : Z := z mod 256.
Definition uint16 (z : Z) : Z := z mod 65536.
Definition uint32 (z : Z) : Z := z mod 4294967296.
Definition uint64 (z : Z) : Z := z mod 18446744073709551616.

(** An integer used as a C++ condition. *)
Definition truthy (z : Z) : bool := negb (z =? 0).

(** [report[i]]: the report is the buffer the host hands over, its length
    is passed separately, as in the callbacks of the source.  The buffer of
    a call holds at least [reportLength] bytes (the driver registers 64);
    a read past the end of the list gives 0. *)
Definition byte_at (report : list Z) (i : nat) : Z := uint8 (nth i report 0).

(** The logical buttons, named as the source prints them. *)
Inductive Button : Type :=
  | A | B | X | Y | L | R | ZL | ZR | Minus | Plus | Home | Capture | L3 | R3.

Definition shown (pressed : bool) (b : Button) : list Button :=
  if pressed then [b] else [].

(** ** switch_pro_driver.cpp *)

Module Basic.

(** The glyphs of [dpad_states]: the eight arrows and the dot for neutral. *)
Inductive Dpad : Type :=
  | Up | UpRight | Right | DownRight | Down | DownLeft | Left | UpLeft | Neutral.

Definition dpad_states : list Dpad :=
  [Up; UpRight; Right; DownRight; Down; DownLeft; Left; UpLeft; Neutral].

(** The local variables of [processInputReport] once the report is parsed. *)
Record Decoded : Type := {
  y_pressed : bool; x_pressed : bool; b_pressed : bool; a_pressed : bool;
  r_pressed : bool; zr_pressed : bool;
  minus_pressed : bool; plus_pressed : bool;
  stick_left_pressed : bool; stick_right_pressed : bool;
  home_pressed : bool; capture_pressed : bool;
  l_pressed : bool; zl_pressed : bool;
  dpad_state : Z; dpad : Dpad;
  left_stick_x : Z; left_stick_y : Z; right_stick_x : Z; right_stick_y : Z
}.

Definition decode (report : list Z) : Decoded :=
  let buttons1 := byte_at report 1 in
  let buttons2 := byte_at report 2 in
  let buttons3 := byte_at report 3 in
  let dpad_state := uint8 (Z.land buttons3 0x0F) in
  {| y_pressed := truthy (Z.land buttons1 0x01);
     x_pressed := truthy (Z.land buttons1 0x02);
     b_pressed := truthy (Z.land buttons1 0x04);
     a_pressed := truthy (Z.land buttons1 0x08);
     r_pressed := truthy (Z.land buttons1 0x40);
     zr_pressed := truthy (Z.land buttons1 0x80);
     minus_pressed := truthy (Z.land buttons2 0x01);
     plus_pressed := truthy (Z.land buttons2 0x02);
     stick_left_pressed := truthy (Z.land buttons2 0x04);
     stick_right_pressed := truthy (Z.land buttons2 0x08);
     home_pressed := truthy (Z.land buttons2 0x10);
     capture_pressed := truthy (Z.land buttons2 0x20);
     l_pressed := truthy (Z.land buttons3 0x20);
     zl_pressed := truthy (Z.land buttons3 0x40);
     dpad_state := dpad_state;
     dpad := if dpad_state <? 8
             then nth (Z.to_nat dpad_state) dpad_states Neutral
             else nth 8 dpad_states Neutral;
     left_stick_x := byte_at report 6;
     left_stick_y := byte_at report 8;
     right_stick_x := byte_at report 10;
     right_stick_y := byte_at report 12 |}.

(** The buttons of a line, in the order the source prints them. *)
Definition pressed (d : Decoded) : list Button :=
  shown (a_pressed d) A ++ shown (b_pressed d) B ++
  shown (x_pressed d) X ++ shown (y_pressed d) Y ++
  shown (l_pressed d) L ++ shown (r_pressed d) R ++
  shown (zl_pressed d) ZL ++ shown (zr_pressed d) ZR ++
  shown (minus_pressed d) Minus ++ shown (plus_pressed d) Plus ++
  shown (home_pressed d) Home ++ shown (capture_pressed d) Capture ++
  shown (stick_left_pressed d) L3 ++ shown (stick_right_pressed d) R3.

(** One printed line: the buttons, the D-pad glyph, and each stick when it
    is off centre. *)
Record Line : Type := {
  line_buttons : list Button;
  line_dpad : Dpad;
  line_lstick : option (Z * Z);
  line_rstick : option (Z * Z)
}.

Definition print_line (d : Decoded) : list Line :=
  if a_pressed d || b_pressed d || x_pressed d || y_pressed d ||
     l_pressed d || r_pressed d || zl_pressed d || zr_pressed d ||
     minus_pressed d || plus_pressed d || home_pressed d || capture_pressed d ||
     stick_left_pressed d || stick_right_pressed d ||
     negb (dpad_state d =? 8)
  then
    [ {| line_buttons := pressed d;
         line_dpad := dpad d;
         line_lstick :=
           if negb (left_stick_x d =? 0x80) || negb (left_stick_y d =? 0x80)
           then Some (left_stick_x d, left_stick_y d) else None;
         line_rstick :=
           if negb (right_stick_x d =? 0x80) || negb (right_stick_y d =? 0x80)
           then Some (right_stick_x d, right_stick_y d) else None |} ]
  else [].

(** [processInputReport]: what it writes to the console. *)
Definition processInputReport (report : list Z) (reportLength : Z) : list Line :=
  if reportLength <? 3 then [] else print_line (decode report).

(** One eighth of a turn clockwise on the compass. *)
Definition clockwise (d : Dpad) : Dpad :=
  match d with
  | Up => UpRight | UpRight => Right | Right => DownRight
  | DownRight => Down | Down => DownLeft | DownLeft => Left
  | Left => UpLeft | UpLeft => Up | Neutral => Neutral
  end.

End Basic.

(** ** switch_pro_neural_driver.cpp *)

Module Neural.

Definition kIOReturnSuccess : Z := 0.
Definition nullptr : Z := 0.

(** One call of the host's write primitive [IOHIDDeviceSetReport]
    (always with the output report type). *)
Record HostWrite : Type := {
  hw_device : Z;
  hw_reportID : Z;
  hw_data : list Z
}.

(** The lines the driver prints. *)
Inductive Console : Type :=
  | PrintConnected
  | PrintDisconnected
  | PrintControllerInitialized
  | PrintInitFailed (result : Z)
  | PrintNeuralEnabled
  | PrintNeuralDisabled
  | PrintGestureDetected
  | PrintButtons (names : list Button)
  | PrintRumbleActivated (duration_ms : Z)
  | PrintLEDPatternSet (pattern : Z).

Record ControllerState : Type := {
  leftStickX : double; leftStickY : double;
  rightStickX : double; rightStickY : double;
  triggerL : double; triggerR : double;
  buttons : Z;      (* uint16_t *)
  timestamp : Z     (* uint64_t, microseconds *)
}.

(** The members of [SwitchProController] the modelled operations use,
    the function-local static [lastTimestamp] of [createFeatureVector],
    and what the two collaborators and the console have seen so far. *)
Record Driver : Type := {
  connectedDevice : Z;                   (* IOHIDDeviceRef, 0 is nullptr *)
  processingEnabled : bool;
  processingThread_joinable : bool;
  featureQueue : list (list double);     (* front of the queue first *)
  currentState : ControllerState;
  lastTimestamp : Z;
  hostWrites : list HostWrite;
  inferenceCalls : list (list double);
  console : list Console
}.

Definition set_connectedDevice (v : Z) (d : Driver) : Driver :=
  {| connectedDevice := v;
     processingEnabled := processingEnabled d;
     processingThread_joinable := processingThread_joinable d;
     featureQueue := featureQueue d;
     currentState := currentState d;
     lastTimestamp := lastTimestamp d;
     hostWrites := hostWrites d;
     inferenceCalls := inferenceCalls d;
     console := console d |}.

Definition set_processing (enabled joinable : bool) (d : Driver) : Driver :=
  {| connectedDevice := connectedDevice d;
     processingEnabled := enabled;
     processingThread_joinable := joinable;
     featureQueue := featureQueue d;
     currentState := currentState d;
     lastTimestamp := lastTimestamp d;
     hostWrites := hostWrites d;
     inferenceCalls := inferenceCalls d;
     console := console d |}.

Definition set_featureQueue (q : list (list double)) (d : Driver) : Driver :=
  {| connectedDevice := connectedDevice d;
     processingEnabled := processingEnabled d;
     processingThread_joinable := processingThread_joinable d;
     featureQueue := q;
     currentState := currentState d;
     lastTimestamp := lastTimestamp d;
     hostWrites := hostWrites d;
     inferenceCalls := inferenceCalls d;
     console := console d |}.

Definition set_currentState (s : ControllerState) (d : Driver) : Driver :=
  {| connectedDevice := connectedDevice d;
     processingEnabled := processingEnabled d;
     processingThread_joinable := processingThread_joinable d;
     featureQueue := featureQueue d;
     currentState := s;
     lastTimestamp := lastTimestamp d;
     hostWrites := hostWrites d;
     inferenceCalls := inferenceCalls d;
     console := console d |}.

Definition set_lastTimestamp (t : Z) (d : Driver) : Driver :=
  {| connectedDevice := connectedDevice d;
     processingEnabled := processingEnabled d;
     processingThread_joinable := processingThread_joinable d;
     featureQueue := featureQueue d;
     currentState := currentState d;
     lastTimestamp := t;
     hostWrites := hostWrites d;
     inferenceCalls := inferenceCalls d;
     console := console d |}.

Definition log_write (w : HostWrite) (d : Driver) : Driver :=
  {| connectedDevice := connectedDevice d;
     processingEnabled := processingEnabled d;
     processingThread_joinable := processingThread_joinable d;
     featureQueue := featureQueue d;
     currentState := currentState d;
     lastTimestamp := lastTimestamp d;
     hostWrites := hostWrites d ++ [w];
     inferenceCalls := inferenceCalls d;
     console := console d |}.

Definition log_inference (features : list double) (d : Driver) : Driver :=
  {| connectedDevice := connectedDevice d;
     processingEnabled := processingEnabled d;
     processingThread_joinable := processingThread_joinable d;
     featureQueue := featureQueue d;
     currentState := currentState d;
     lastTimestamp := lastTimestamp d;
     hostWrites := hostWrites d;
     inferenceCalls := inferenceCalls d ++ [features];
     console := console d |}.

Definition print (c : Console) (d : Driver) : Driver :=
  {| connectedDevice := connectedDevice d;
     processingEnabled := processingEnabled d;
     processingThread_joinable := processingThread_joinable d;
     featureQueue := featureQueue d;
     currentState := currentState d;
     lastTimestamp := lastTimestamp d;
     hostWrites := hostWrites d;
     inferenceCalls := inferenceCalls d;
     console := console d ++ [c] |}.

(** The constructor: [currentState = {0.5, 0.5, 0.5, 0.5, 0.0, 0.0, 0, 0}],
    no device, processing off, and the static [lastTimestamp = 0]. *)
Definition initialState : ControllerState :=
  {| leftStickX := half; leftStickY := half;
     rightStickX := half; rightStickY := half;
     triggerL := zero; triggerR := zero;
     buttons := 0; timestamp := 0 |}.

Definition SwitchProController : Driver :=
  {| connectedDevice := nullptr;
     processingEnabled := false;
     processingThread_joinable := false;
     featureQueue := [];
     currentState := initialState;
     lastTimestamp := 0;
     hostWrites := [];
     inferenceCalls := [];
     console := [] |}.

(** *** The operations *)

Section Operations.

(** The two collaborators.  [host] is the result the host subsystem gives
    to a write, which may depend on the writes made before it.  [classify]
    is [NeuralEngineWrapper::processControllerFeatures]: the label the
    inference engine returns for a feature vector, which may depend on the
    vectors it was given before. *)
Variable host : list HostWrite -> HostWrite -> Z.
Variable classify : list (list double) -> list double -> String.string.

Definition IOHIDDeviceSetReport (device reportID : Z) (data : list Z)
    (d : Driver) : Z * Driver :=
  let w := {| hw_device := device; hw_reportID := reportID; hw_data := data |} in
  (host (hostWrites d) w, log_write w d).

(** The array [rumbleData] of [rumble]. *)
Definition rumbleData (lowFreq highFreq : Z) : list Z :=
  [ 0x10; 0x80; 0x00; 0x00; 0x00;
    uint8 (Z.land highFreq 0xFF); uint8 (Z.shiftr highFreq 8);
    uint8 (Z.land lowFreq 0xFF); uint8 (Z.shiftr lowFreq 8);
    0x00; 0x00; 0x00; 0x00; 0x00 ].

Definition rumble (lowFreq highFreq duration_ms : Z) (d : Driver) : Driver :=
  let lowFreq := uint16 lowFreq in
  let highFreq := uint16 highFreq in
  let duration_ms := uint32 duration_ms in
  if connectedDevice d =? nullptr then d
  else
    let '(result, d1) :=
      IOHIDDeviceSetReport (connectedDevice d) 0x10 (rumbleData lowFreq highFreq) d in
    if result =? kIOReturnSuccess
    then print (PrintRumbleActivated duration_ms) d1
    else d1.

(** The array [ledData] of [setLEDPattern]. *)
Definition ledData (pattern : Z) : list Z :=
  [ 0x01; uint8 (Z.land pattern 0x0F) ].

Definition setLEDPattern (pattern : Z) (d : Driver) : Driver :=
  let pattern := uint8 pattern in
  if connectedDevice d =? nullptr then d
  else
    let '(result, d1) :=
      IOHIDDeviceSetReport (connectedDevice d) 0x01 (ledData pattern) d in
    if result =? kIOReturnSuccess
    then print (PrintLEDPatternSet pattern) d1
    else d1.

(** [enableNeuralProcessing]: the flag, and the processing thread that is
    created on the first enable and joined on disable. *)
Definition enableNeuralProcessing (enable : bool) (d : Driver) : Driver :=
  let joinable := processingThread_joinable d in
  if enable && negb joinable
  then print PrintNeuralEnabled (set_processing enable true d)
  else if negb enable && joinable
  then print PrintNeuralDisabled (set_processing enable false d)
  else set_processing enable joinable d.

Definition initData : list Z := [ 0x80; 0x01 ].

Definition setupController (device : Z) (d : Driver) : Driver :=
  let d1 := set_connectedDevice device d in
  let '(result, d2) := IOHIDDeviceSetReport device 0x01 initData d1 in
  if result =? kIOReturnSuccess
  then
    enableNeuralProcessing true
      (rumble 0x00 0x20 100
        (setLEDPattern 0x01
          (print PrintControllerInitialized d2)))
  else print (PrintInitFailed result) d2.

(** [printControllerInfo] only prints properties it reads from the host;
    it is left out of the console. *)
Definition deviceAdded (device : Z) (d : Driver) : Driver :=
  setupController device (print PrintConnected d).

Definition deviceRemoved (d : Driver) : Driver :=
  print PrintDisconnected (set_connectedDevice nullptr d).

(** [(state.buttons & mask) ? 1.0 : 0.0] *)
Definition flag (buttons mask : Z) : double :=
  if truthy (Z.land buttons mask) then one else zero.

(** [createFeatureVector]: the vector, and the new value of the static
    [lastTimestamp], whose current value is the second argument.  The sum
    of squares is rounded after each operation. *)
Definition createFeatureVector (state : ControllerState) (lastTimestamp : Z)
    : list double * Z :=
  let leftStickMagnitude :=
    sqrt (add (mul (leftStickX state) (leftStickX state))
              (mul (leftStickY state) (leftStickY state))) in
  let rightStickMagnitude :=
    sqrt (add (mul (rightStickX state) (rightStickX state))
              (mul (rightStickY state) (rightStickY state))) in
  let timeDelta :=
    if 0 <? lastTimestamp
    then div (of_Z (uint64 (timestamp state - lastTimestamp))) d1000000
    else zero in
  ( [ leftStickX state;            (* [0] *)
      leftStickY state;            (* [1] *)
      rightStickX state;           (* [2] *)
      rightStickY state;           (* [3] *)
      triggerL state;              (* [4] *)
      triggerR state;              (* [5] *)
      flag (buttons state) 0x0001; (* A *)
      flag (buttons state) 0x0002; (* B *)
      flag (buttons state) 0x0004; (* X *)
      flag (buttons state) 0x0008; (* Y *)
      flag (buttons state) 0x0010; (* L *)
      flag (buttons state) 0x0020; (* R *)
      flag (buttons state) 0x0040; (* ZL *)
      flag (buttons state) 0x0080; (* ZR *)
      leftStickMagnitude;          (* [14] *)
      rightStickMagnitude;         (* [15] *)
      timeDelta ],                 (* [16] *)
    timestamp state ).

(** [featureQueue.push(features)], then one [pop] when the size passed 100. *)
Definition enqueue (features : list double) (q : list (list double))
    : list (list double) :=
  let q1 := q ++ [features] in
  if 100 <? Z.of_nat (length q1) then tl q1 else q1.

Definition extractFeatures (state : ControllerState) (d : Driver) : Driver :=
  if negb (processingEnabled d) then d
  else
    let '(features, last) := createFeatureVector state (lastTimestamp d) in
    set_featureQueue (enqueue features (featureQueue d))
      (set_lastTimestamp last d).

(** [cond ? bit : 0] *)
Definition bit_if (cond bit : Z) : Z := if truthy cond then bit else 0.

(** The button word [processInputReport] builds from the three status bytes. *)
Definition button_word (buttons1 buttons3 : Z) : Z :=
  let b := 0 in
  let b := uint16 (Z.lor b (bit_if (Z.land buttons1 0x01) 0x0001)) in (* Y *)
  let b := uint16 (Z.lor b (bit_if (Z.land buttons1 0x02) 0x0002)) in (* X *)
  let b := uint16 (Z.lor b (bit_if (Z.land buttons1 0x04) 0x0004)) in (* B *)
  let b := uint16 (Z.lor b (bit_if (Z.land buttons1 0x08) 0x0008)) in (* A *)
  let b := uint16 (Z.lor b (bit_if (Z.land buttons3 0x20) 0x0010)) in (* L *)
  let b := uint16 (Z.lor b (bit_if (Z.land buttons1 0x40) 0x0020)) in (* R *)
  let b := uint16 (Z.lor b (bit_if (Z.land buttons3 0x40) 0x0040)) in (* ZL *)
  let b := uint16 (Z.lor b (bit_if (Z.land buttons1 0x80) 0x0080)) in (* ZR *)
  b.

(** The update of [currentState] by [processInputReport]; [now] is the
    count of microseconds the system clock gives. *)
Definition decode (report : list Z) (reportLength now : Z)
    (s : ControllerState) : ControllerState :=
  let buttons1 := byte_at report 1 in
  let buttons3 := byte_at report 3 in
  {| leftStickX :=
       if 8 <? reportLength then div (of_Z (byte_at report 6)) d255
       else leftStickX s;
     leftStickY :=
       if 8 <? reportLength then div (of_Z (byte_at report 8)) d255
       else leftStickY s;
     rightStickX :=
       if 12 <? reportLength then div (of_Z (byte_at report 10)) d255
       else rightStickX s;
     rightStickY :=
       if 12 <? reportLength then div (of_Z (byte_at report 12)) d255
       else rightStickY s;
     triggerL := triggerL s;
     triggerR := triggerR s;
     buttons := button_word buttons1 buttons3;
     timestamp := uint64 now |}.

(** The buttons of the printed line, in the order the source prints them. *)
Definition pressed (report : list Z) : list Button :=
  let buttons1 := byte_at report 1 in
  let buttons2 := byte_at report 2 in
  let buttons3 := byte_at report 3 in
  shown (truthy (Z.land buttons1 0x08)) A ++
  shown (truthy (Z.land buttons1 0x04)) B ++
  shown (truthy (Z.land buttons1 0x02)) X ++
  shown (truthy (Z.land buttons1 0x01)) Y ++
  shown (truthy (Z.land buttons3 0x20)) L ++
  shown (truthy (Z.land buttons1 0x40)) R ++
  shown (truthy (Z.land buttons3 0x40)) ZL ++
  shown (truthy (Z.land buttons1 0x80)) ZR ++
  shown (truthy (Z.land buttons2 0x01)) Minus ++
  shown (truthy (Z.land buttons2 0x02)) Plus ++
  shown (truthy (Z.land buttons2 0x10)) Home ++
  shown (truthy (Z.land buttons2 0x20)) Capture.

Definition processInputReport (report : list Z) (reportLength now : Z)
    (d : Driver) : Driver :=
  if reportLength <? 3 then d
  else
    let s := decode report reportLength now (currentState d) in
    let d1 := extractFeatures s (set_currentState s d) in
    match pressed report with
    | [] => d1
    | names => print (PrintButtons names) d1
    end.

(** The callback [inputReport]. *)
Definition inputReport (result : Z) (report : list Z) (reportLength now : Z)
    (d : Driver) : Driver :=
  if negb (result =? kIOReturnSuccess) then d
  else processInputReport report reportLength now d.

(** The body of the [while] of [neuralProcessingLoop], up to the sleep. *)
Definition neuralProcessingStep (d : Driver) : Driver :=
  let '(features, d1) :=
    match featureQueue d with
    | [] => ([], d)
    | front :: rest => (front, set_featureQueue rest d)
    end in
  match features with
  | [] => d1
  | _ :: _ =>
    let result := classify (inferenceCalls d1) features in
    let d2 := log_inference features d1 in
    if negb (String.eqb result "NO_DATA") &&
       negb (String.eqb result "PROCESSOR_NOT_READY")
    then
      if String.eqb result "GESTURE_DETECTED"
      then print PrintGestureDetected (rumble 0x30 0x30 50 d2)
      else d2
    else d2
  end.

(** [stop], and the destructor that calls it: the processing thread is
    joined; the rest closes the host's manager and joins the input thread,
    which are not part of [Driver]. *)
Definition stop (d : Driver) : Driver := enableNeuralProcessing false d.

(** One turn of the loop of the processing thread, when there is one. *)
Definition neuralProcessingLoop (d : Driver) : Driver :=
  if processingThread_joinable d && processingEnabled d
  then neuralProcessingStep d
  else d.

(** What can happen to a driver: the host's callbacks, a turn of the
    processing thread, and the calls of the public operations
    ([initialize] and [start] only set up the host's manager and the input
    thread, which are not part of [Driver]). *)
Inductive Event : Type :=
  | DeviceAdded (device : Z)
  | DeviceRemoved
  | InputReport (result : Z) (report : list Z) (reportLength now : Z)
  | NeuralTurn
  | Rumble (lowFreq highFreq duration_ms : Z)
  | SetLEDPattern (pattern : Z)
  | EnableNeuralProcessing (enable : bool)
  | Stop.

Definition step (d : Driver) (e : Event) : Driver :=
  match e with
  | DeviceAdded device => deviceAdded device d
  | DeviceRemoved => deviceRemoved d
  | InputReport result report reportLength now =>
      inputReport result report reportLength now d
  | NeuralTurn => neuralProcessingLoop d
  | Rumble lowFreq highFreq duration_ms => rumble lowFreq highFreq duration_ms d
  | SetLEDPattern pattern => setLEDPattern pattern d
  | EnableNeuralProcessing enable => enableNeuralProcessing enable d
  | Stop => stop d
  end.

Definition run (events : list Event) : Driver :=
  fold_left step events SwitchProController.

End Operations.

(** *** Predicates on drivers *)

(** [d'] has the pipeline of [d]: the queue, the current state, the static
    [lastTimestamp] and the vectors given to the inference engine. *)
Definition same_pipeline (d d' : Driver) : Prop :=
  featureQueue d' = featureQueue d /\
  currentState d' = currentState d /\
  lastTimestamp d' = lastTimestamp d /\
  inferenceCalls d' = inferenceCalls d.

(** A vector as [createFeatureVector] builds them: 17 elements, the two
    trigger elements 0.0, and a time delta that is not below 0.0. *)
Definition derived (v : list double) : Prop :=
  length v = 17%nat /\ nth 4 v one = zero /\ nth 5 v one = zero /\
  leb zero (nth 16 v one) = true.

(** What holds of a driver whatever happened to it. *)
Definition invariant (d : Driver) : Prop :=
  (length (featureQueue d) <= 100)%nat /\
  triggerL (currentState d) = zero /\
  triggerR (currentState d) = zero /\
  Forall derived (featureQueue d) /\
  Forall derived (inferenceCalls d).

(** The eight button flags of a feature vector, elements 6 to 13. *)
Definition button_flags (v : list double) : list double :=
  firstn 8 (skipn 6 v).

End Neural.

(** ** Vocabulary of the further properties *)

(** [report[i] / 255.0], the normalisation of a stick byte. *)
Definition normalise (b : Z) : double := div (of_Z b) d255.

(** [0.0 <= x && x <= 1.0] *)
Definition in_unit (x : double) : bool := leb zero x && leb x one.

(** The square root of 2.0, the magnitude of the pair (1.0, 1.0). *)
Definition sqrt2 : double := sqrt (of_Z 2).

(** The values a [uint8_t] takes. *)
Definition bytes : list Z := map Z.of_nat (seq 0 256).

(** Every element is below all the elements after it. *)
Fixpoint strictly_increasing (l : list double) : bool :=
  match l with
  | [] => true
  | x :: rest => forallb (ltb x) rest && strictly_increasing rest
  end.

(** The four stick fields of a controller state. *)
Definition axes (s : Neural.ControllerState) : list double :=
  [ Neural.leftStickX s; Neural.leftStickY s;
    Neural.rightStickX s; Neural.rightStickY s ].

(** A button flag of a feature vector. *)
Definition is_flag (x : double) : Prop := x = zero \/ x = one.

(** A pair of stick fields as the driver can hold it: the 0.5 of the
    constructor on both axes, or two normalised bytes. *)
Definition stick_pair (x y : double) : Prop :=
  (x = half /\ y = half) \/
  (exists bx by_, 0 <= bx < 256 /\ 0 <= by_ < 256 /\
                  x = normalise bx /\ y = normalise by_).

Definition stick_pairs (s : Neural.ControllerState) : Prop :=
  stick_pair (Neural.leftStickX s) (Neural.leftStickY s) /\
  stick_pair (Neural.rightStickX s) (Neural.rightStickY s).

(** [0.0 <= x && x <= sqrt(2.0)] *)
Definition in_magnitude_range (x : double) : bool := leb zero x && leb x sqrt2.

(** A feature vector whose stick elements (0 to 3) lie in [0, 1], whose
    button flags (6 to 13) are 0.0 or 1.0 and whose magnitudes (14, 15) lie
    in [0, sqrt 2]. *)
Definition bounded_vector (v : list double) : Prop :=
  Forall (fun x => in_unit x = true) (firstn 4 v) /\
  Forall is_flag (Neural.button_flags v) /\
  Forall (fun x => in_magnitude_range x = true) (firstn 2 (skipn 14 v)).

(** The square root of every sum of two of the given squares lies between
    0.0 and the bound. *)
Definition sums_in_magnitude_range (squares : list double) (bound : double)
    : bool :=
  forallb (fun sx =>
    forallb (fun sy =>
      let m := sqrt (add sx sy) in leb zero m && leb m bound) squares)
    squares.

(** [b ? 1.0 : 0.0] *)
Definition flag_of (b : bool) : double := if b then one else zero.

(** A write as the driver frames it: bytes only, two of them under report
    ID 0x01 (handshake or LED) or fourteen under report ID 0x10 (rumble). *)
Definition well_framed (w : Neural.HostWrite) : Prop :=
  Forall (fun x => 0 <= x < 256) (Neural.hw_data w) /\
  ((Neural.hw_reportID w = 0x01 /\ length (Neural.hw_data w) = 2%nat) \/
   (Neural.hw_reportID w = 0x10 /\ length (Neural.hw_data w) = 14%nat /\
    nth 0 (Neural.hw_data w) 0 = 0x10)).

(** An event other than the attachment of a device. *)
Definition not_DeviceAdded (e : Neural.Event) : Prop :=
  match e with
  | Neural.DeviceAdded _ => False
  | _ => True
  end.

(** The buttons the neural driver prints: all but the two stick clicks. *)
Definition printed_by_neural (b : Button) : bool :=
  match b with
  | L3 | R3 => false
  | _ => true
  end.

(** ** NeuralGestureProcessor and NeuralEngineWrapper *)

Module Engine.

(** What Core ML answers for a vector of features. *)
Inductive Prediction : Type :=
  | ArrayFailed                       (* the MLMultiArray was not created *)
  | PredictionFailed                  (* predictionFromFeatures gave an error *)
  | NoOutput                          (* no multi-array feature "output" *)
  | Output (confidence : double).     (* outputArray[0] *)

(** [processControllerData] of NeuralGestureProcessor, over a loaded model. *)
Definition processControllerData (model : list double -> Prediction)
    (inputFeatures : list double) : String.string :=
  match inputFeatures with
  | [] => "NO_DATA"
  | _ :: _ =>
    match model inputFeatures with
    | ArrayFailed => "ERROR"
    | PredictionFailed => "PREDICTION_ERROR"
    | Output confidence =>
        if ltb half confidence then "GESTURE_DETECTED" else "NO_GESTURE"
    | NoOutput => "UNKNOWN"
    end
  end.

(** Whether the file is compiled as Objective-C++ ([__OBJC__] defined) or
    as plain C++, as the command of its header does. *)
Inductive Build : Type := PlainCpp | ObjectiveCpp.

(** [NeuralEngineWrapper::processControllerFeatures]; [processor] is the
    member of that name, [None] for [nullptr]. *)
Definition processControllerFeatures (build : Build)
    (processor : option (list double -> Prediction))
    (features : list double) : String.string :=
  match build with
  | PlainCpp => "OBJC_UNAVAILABLE"
  | ObjectiveCpp =>
    match processor with
    | None => "PROCESSOR_NOT_READY"
    | Some model => processControllerData model features
    end
  end.

(** [NeuralEngineWrapper::initialize]: the new [processor] and the result;
    [loaded] is the processor [initWithModel] gives, [None] for nil. *)
Definition initialize (build : Build)
    (loaded : option (list double -> Prediction))
    : option (list double -> Prediction) * bool :=
  match build with
  | PlainCpp => (None, false)
  | ObjectiveCpp => (loaded, match loaded with Some _ => true | None => false end)
  end.

(** [NeuralEngineWrapper::getAvailableModels] *)
Definition getAvailableModels (build : Build)
    (processor : option (list double -> Prediction)) : list String.string :=
  match build with
  | PlainCpp => []
  | ObjectiveCpp =>
    match processor with
    | None => []
    | Some _ => ["GestureClassifier"; "MotionPredictor"; "GameplayAnalyzer"]
    end
  end.

(** The engine as the driver's processing loop calls it. *)
Definition classify (build : Build)
    (processor : option (list double -> Prediction))
    : list (list double) -> list double -> String.string :=
  fun _ features => processControllerFeatures build processor features.

End Engine.

(** ** initialize, start, stop and main *)

Module Facade.

(** The calls to the host that create, configure and release its objects,
    and the two operations on [inputThread]. *)
Inductive HostCall : Type :=
  | IOHIDManagerCreate
  | CFDictionaryCreateMutable
  | CFNumberCreate (value : Z)
  | CFDictionarySetValue (dict value : Z)
  | IOHIDManagerSetDeviceMatching (manager dict : Z)
  | CFRelease (object : Z)
  | IOHIDManagerRegisterDeviceMatchingCallback (manager : Z)
  | IOHIDManagerRegisterDeviceRemovalCallback (manager : Z)
  | IOHIDManagerRegisterInputReportCallback (manager : Z)
  | IOHIDManagerScheduleWithRunLoop (manager : Z)
  | IOHIDManagerOpen (manager : Z)
  | IOHIDManagerClose (manager : Z)
  | CFRunLoopStop
  | ThreadCreate
  | ThreadJoin.

(** The lines [initialize] and [main] print on an outcome; the banners and
    the menu, which are printed whatever happens, are left out. *)
Inductive Say : Type :=
  | SayEngineFallback
  | SayEngineReady (models : list String.string)
  | SayCreateManagerFailed
  | SayCreateDictionaryFailed
  | SayOpenFailed (result : Z)
  | SayInitialized
  | SayInitializeFailed
  | SayNeuralProcessing (enabled : bool)
  | SayTesting
  | SayStatus (neural : bool)
  | SayShuttingDown
  | SayInvalidOption
  | SayStopped.

Definition VENDOR_ID : Z := 0x057e.
Definition PRODUCT_ID : Z := 0x2009.

(** What the host and Core ML give to one call of [initialize]: the loaded
    processor and the five objects and results, 0 for a null reference. *)
Record Answers : Type := {
  loaded : option (list double -> Engine.Prediction);
  manager : Z;
  matchingDict : Z;
  vendorIDRef : Z;
  productIDRef : Z;
  openResult : Z
}.

(** The controller object: the members of [Neural.Driver], the processor of
    its [neuralEngine], and the members the lifecycle uses, with the calls
    made and the lines said so far. *)
Record Controller : Type := {
  driver : Neural.Driver;
  neuralEngine : option (list double -> Engine.Prediction);
  hidManager : Z;
  isRunning : bool;
  inputThread_joinable : bool;
  calls : list HostCall;
  said : list Say
}.

Definition set_driver (v : Neural.Driver) (c : Controller) : Controller :=
  {| driver := v; neuralEngine := neuralEngine c; hidManager := hidManager c;
     isRunning := isRunning c; inputThread_joinable := inputThread_joinable c;
     calls := calls c; said := said c |}.

Definition set_neuralEngine (v : option (list double -> Engine.Prediction))
    (c : Controller) : Controller :=
  {| driver := driver c; neuralEngine := v; hidManager := hidManager c;
     isRunning := isRunning c; inputThread_joinable := inputThread_joinable c;
     calls := calls c; said := said c |}.

Definition set_hidManager (v : Z) (c : Controller) : Controller :=
  {| driver := driver c; neuralEngine := neuralEngine c; hidManager := v;
     isRunning := isRunning c; inputThread_joinable := inputThread_joinable c;
     calls := calls c; said := said c |}.

Definition set_isRunning (v : bool) (c : Controller) : Controller :=
  {| driver := driver c; neuralEngine := neuralEngine c;
     hidManager := hidManager c; isRunning := v;
     inputThread_joinable := inputThread_joinable c;
     calls := calls c; said := said c |}.

Definition set_inputThread (v : bool) (c : Controller) : Controller :=
  {| driver := driver c; neuralEngine := neuralEngine c;
     hidManager := hidManager c; isRunning := isRunning c;
     inputThread_joinable := v; calls := calls c; said := said c |}.

Definition call (h : HostCall) (c : Controller) : Controller :=
  {| driver := driver c; neuralEngine := neuralEngine c;
     hidManager := hidManager c; isRunning := isRunning c;
     inputThread_joinable := inputThread_joinable c;
     calls := calls c ++ [h]; said := said c |}.

Definition say (s : Say) (c : Controller) : Controller :=
  {| driver := driver c; neuralEngine := neuralEngine c;
     hidManager := hidManager c; isRunning := isRunning c;
     inputThread_joinable := inputThread_joinable c;
     calls := calls c; said := said c ++ [s] |}.

(** The constructor. *)
Definition SwitchProController : Controller :=
  {| driver := Neural.SwitchProController;
     neuralEngine := None;
     hidManager := Neural.nullptr;
     isRunning := false;
     inputThread_joinable := false;
     calls := [];
     said := [] |}.

(** [initialize]: the result and the controller after it. *)
Definition initialize (build : Engine.Build) (a : Answers) (c : Controller)
    : bool * Controller :=
  let '(processor, ready) := Engine.initialize build (loaded a) in
  let c := set_neuralEngine processor c in
  let c :=
    if negb ready then say SayEngineFallback c
    else say (SayEngineReady (Engine.getAvailableModels build processor)) c in
  let c := set_hidManager (manager a) (call IOHIDManagerCreate c) in
  if hidManager c =? Neural.nullptr
  then (false, say SayCreateManagerFailed c)
  else
    let c := call CFDictionaryCreateMutable c in
    if matchingDict a =? Neural.nullptr
    then (false, call (CFRelease (hidManager c)) (say SayCreateDictionaryFailed c))
    else
      let c := call (CFNumberCreate PRODUCT_ID) (call (CFNumberCreate VENDOR_ID) c) in
      let c :=
        if negb (vendorIDRef a =? Neural.nullptr) &&
           negb (productIDRef a =? Neural.nullptr)
        then
          call (CFRelease (productIDRef a))
            (call (CFRelease (vendorIDRef a))
              (call (IOHIDManagerSetDeviceMatching (hidManager c) (matchingDict a))
                (call (CFDictionarySetValue (matchingDict a) (productIDRef a))
                  (call (CFDictionarySetValue (matchingDict a) (vendorIDRef a))
                    c))))
        else c in
      let c := call (CFRelease (matchingDict a)) c in
      let c :=
        call (IOHIDManagerRegisterInputReportCallback (hidManager c))
          (call (IOHIDManagerRegisterDeviceRemovalCallback (hidManager c))
            (call (IOHIDManagerRegisterDeviceMatchingCallback (hidManager c))
              c)) in
      let c := call (IOHIDManagerScheduleWithRunLoop (hidManager c)) c in
      let c := call (IOHIDManagerOpen (hidManager c)) c in
      if negb (openResult a =? Neural.kIOReturnSuccess)
      then
        (false,
         set_hidManager Neural.nullptr
           (call (CFRelease (hidManager c)) (say (SayOpenFailed (openResult a)) c)))
      else (true, say SayInitialized c).

(** [start]; [None] is [std::terminate], which the assignment of a new
    thread to a joinable [inputThread] calls. *)
Definition start (c : Controller) : option Controller :=
  if negb (isRunning c) && negb (hidManager c =? Neural.nullptr)
  then
    if inputThread_joinable c then None
    else Some (set_inputThread true (call ThreadCreate (set_isRunning true c)))
  else Some c.

(** [stop], which the destructor calls too. *)
Definition stop (c : Controller) : Controller :=
  let c := set_driver (Neural.stop (driver c)) c in
  let c :=
    if isRunning c
    then
      let c := set_isRunning false c in
      let c :=
        if negb (hidManager c =? Neural.nullptr) then call CFRunLoopStop c
        else c in
      if inputThread_joinable c
      then set_inputThread false (call ThreadJoin c)
      else c
    else c in
  if negb (hidManager c =? Neural.nullptr)
  then
    set_hidManager Neural.nullptr
      (call (CFRelease (hidManager c)) (call (IOHIDManagerClose (hidManager c)) c))
  else c.

(** How many times an object was released. *)
Definition releases (object : Z) (l : list HostCall) : nat :=
  length (filter (fun h => match h with
                           | CFRelease o => o =? object
                           | _ => false
                           end) l).

(** How many times a manager was closed. *)
Definition closes (object : Z) (l : list HostCall) : nat :=
  length (filter (fun h => match h with
                           | IOHIDManagerClose o => o =? object
                           | _ => false
                           end) l).

(** *** main *)

(** [ledPattern = (ledPattern << 1) & 0x0F; if (ledPattern == 0) ledPattern = 0x01;]
    on the [uint8_t] of [main]. *)
Definition next_ledPattern (ledPattern : Z) : Z :=
  let p := uint8 (Z.land (Z.shiftl ledPattern 1) 0x0F) in
  if p =? 0 then 0x01 else p.

(** The local variables of [main] with its controller. *)
Record Main : Type := {
  controller : Controller;
  ledPattern : Z;
  neuralEnabled : bool
}.

Section Menu.

Variable host : list Neural.HostWrite -> Neural.HostWrite -> Z.
Variable build : Engine.Build.

Definition on_driver (f : Neural.Driver -> Neural.Driver) (m : Main) : Main :=
  {| controller := set_driver (f (driver (controller m))) (controller m);
     ledPattern := ledPattern m;
     neuralEnabled := neuralEnabled m |}.

Definition main_say (s : Say) (m : Main) : Main :=
  {| controller := say s (controller m);
     ledPattern := ledPattern m;
     neuralEnabled := neuralEnabled m |}.

(** The body of the [switch] for a choice other than 7. *)
Definition choose (choice : Z) (m : Main) : Main :=
  if choice =? 1 then on_driver (Neural.rumble host 0x00 0x20 300) m
  else if choice =? 2 then on_driver (Neural.rumble host 0x80 0xFF 500) m
  else if choice =? 3 then
    let m1 := on_driver (Neural.setLEDPattern host (ledPattern m)) m in
    {| controller := controller m1;
       ledPattern := next_ledPattern (ledPattern m);
       neuralEnabled := neuralEnabled m1 |}
  else if choice =? 4 then
    let enabled := negb (neuralEnabled m) in
    main_say (SayNeuralProcessing enabled)
      (on_driver (Neural.enableNeuralProcessing enabled)
        {| controller := controller m;
           ledPattern := ledPattern m;
           neuralEnabled := enabled |})
  else if choice =? 5 then main_say SayTesting m
  else if choice =? 6 then main_say (SayStatus (neuralEnabled m)) m
  else if choice =? 7 then main_say SayShuttingDown m
  else main_say SayInvalidOption m.

(** What happens while [main] is in its menu: the user enters a choice, or
    the driver handles an event of the host or a turn of its processing
    loop. *)
Inductive Happening : Type :=
  | Choice (choice : Z)
  | Callback (e : Neural.Event).

Definition happen (m : Main) (h : Happening) : Main :=
  match h with
  | Choice choice => choose choice m
  | Callback e =>
      on_driver
        (fun d => Neural.step host
                    (Engine.classify build (neuralEngine (controller m))) d e)
        m
  end.

(** The [while (choice != 7)] loop over what happens, up to the first
    choice 7; [None] when 7 is never entered. *)
Fixpoint menu (m : Main) (l : list Happening) : option Main :=
  match l with
  | [] => None
  | Choice choice :: rest =>
      if choice =? 7 then Some (choose choice m) else menu (choose choice m) rest
  | h :: rest => menu (happen m h) rest
  end.

(** [main]: the exit code and the controller once destroyed; [None] when
    the menu never ends. *)
Definition main (a : Answers) (l : list Happening) : option (Z * Controller) :=
  let '(ok, c) := initialize build a SwitchProController in
  if negb ok then Some (-1, stop (say SayInitializeFailed c))
  else
    match start c with
    | None => None
    | Some c =>
      match menu {| controller := c; ledPattern := 0x01; neuralEnabled := true |} l with
      | None => None
      | Some m => Some (0, stop (say SayStopped (stop (controller m))))
      end
    end.

End Menu.

End Facade.

(** The public lifecycle operations and the driver's events, in any order;
    [None] once [start] has called [std::terminate]. *)
Inductive Operation : Type :=
  | DoInitialize (a : Facade.Answers)
  | DoStart
  | DoStop
  | DoEvent (e : Neural.Event).

Definition operate (host : list Neural.HostWrite -> Neural.HostWrite -> Z)
    (build : Engine.Build) (c : option Facade.Controller) (op : Operation)
    : option Facade.Controller :=
  match c with
  | None => None
  | Some c =>
    match op with
    | DoInitialize a => Some (snd (Facade.initialize build a c))
    | DoStart => Facade.start c
    | DoStop => Some (Facade.stop c)
    | DoEvent e =>
        Some (Facade.set_driver
                (Neural.step host
                   (Engine.classify build (Facade.neuralEngine c))
                   (Facade.driver c) e) c)
    end
  end.

(** Whether the user ever enters 7. *)
Definition has_exit (l : list Facade.Happening) : bool :=
  existsb (fun h => match h with
                    | Facade.Choice choice => choice =? 7
                    | _ => false
                    end) l.

(** How many times the user enters 3. *)
Definition threes (l : list Facade.Happening) : nat :=
  length (filter (fun h => match h with
                           | Facade.Choice choice => choice =? 3
                           | _ => false
                           end) l).

(** * Properties *)

(** ** The literals

    The constants of [Double] are the binary64 values of the C++ literals. *)
Example literal_zero : Prim2SF 0%float = zero.
Proof. vm_compute. reflexivity. Qed.

Example literal_one : Prim2SF 1%float = one /\ of_Z 1 = one.
Proof. vm_compute. split; reflexivity. Qed.

Example literal_half : Prim2SF 0.5%float = half /\ div one (of_Z 2) = half.
Proof. vm_compute. split; reflexivity. Qed.

Example literal_255 : Prim2SF 255%float = d255.
Proof. vm_compute. reflexivity. Qed.

Example literal_1000000 : Prim2SF 1000000%float = d1000000.
Proof. vm_compute. reflexivity. Qed.

(** ** Signs of rounded results *)

Section DoubleFacts.

(** Rounding never turns a mantissa that is not negative into a negative one. *)
Lemma shr_1_nonneg (mrs : shr_record) :
  0 <= shr_m mrs -> 0 <= shr_m (shr_1 mrs).
Proof.
  destruct mrs as [m r s]; simpl.
  destruct m as [|[p|p|]|[p|p|]]; simpl; lia.
Qed.

Lemma iter_shr_1_nonneg (p : positive) :
  forall mrs, 0 <= shr_m mrs -> 0 <= shr_m (iter_pos shr_1 p mrs).
Proof.
  induction p as [p IH|p IH|]; intros mrs H; simpl.
  - apply IH, IH, shr_1_nonneg, H.
  - apply IH, IH, H.
  - apply shr_1_nonneg, H.
Qed.

Lemma shr_fexp_nonneg (m e : Z) (l : location) :
  0 <= m -> 0 <= shr_m (fst (shr_fexp prec emax m e l)).
Proof.
  intros H. unfold shr_fexp, shr.
  assert (H0 : 0 <= shr_m (shr_record_of_loc m l))
    by (destruct l as [|[| |]]; simpl; exact H).
  destruct (fexp prec emax (Zdigits2 m + e) - e) as [|p|p]; simpl; trivial.
  apply iter_shr_1_nonneg, H0.
Qed.

Lemma round_nearest_even_nonneg (m : Z) (l : location) :
  0 <= m -> 0 <= round_nearest_even m l.
Proof.
  intros H. destruct l as [|[| |]]; simpl; try lia.
  destruct (Z.even m); lia.
Qed.

Lemma binary_round_aux_nonneg (m e : Z) (l : location) :
  0 <= m -> leb zero (binary_round_aux prec emax false m e l) = true.
Proof.
  intros H. unfold binary_round_aux.
  pose proof (shr_fexp_nonneg m e l H) as H1.
  destruct (shr_fexp prec emax m e l) as [mrs' e']. simpl in H1.
  pose proof (shr_fexp_nonneg _ e' loc_Exact
                (round_nearest_even_nonneg _ (loc_of_shr_record mrs') H1)) as H2.
  destruct (shr_fexp prec emax _ e' loc_Exact) as [mrs'' e'']. simpl in H2.
  destruct (shr_m mrs'') as [|p|p]; [reflexivity| |lia].
  destruct (e'' <=? emax - prec); reflexivity.
Qed.

Lemma of_Z_nonneg (z : Z) : 0 <= z -> leb zero (of_Z z) = true.
Proof.
  intros H. unfold of_Z, binary_normalize.
  destruct z as [|p|p]; [reflexivity| |lia].
  unfold binary_round.
  destruct (shl_align p 0 _) as [mz ez].
  apply binary_round_aux_nonneg. lia.
Qed.

Lemma div_nonneg (x : double) (my : positive) (ey : Z) :
  leb zero x = true -> leb zero (div x (S754_finite false my ey)) = true.
Proof.
  intros H. destruct x as [s|s| |s mx ex]; try discriminate H.
  - reflexivity.
  - destruct s; [discriminate H|reflexivity].
  - destruct s; [discriminate H|].
    unfold div, SFdiv, SFdiv_core_binary.
    set (m' := match _ with Z0 => Z.pos mx | Zpos _ => _ | Zneg _ => 0 end).
    assert (Hm : 0 <= m').
    { subst m'. destruct (_ - _) as [|q|q]; try lia.
      apply Z.shiftl_nonneg. lia. }
    pose proof (Z.div_pos m' (Z.pos my) Hm ltac:(lia)) as Hq.
    unfold Z.div in Hq.
    destruct (Z.div_eucl m' (Z.pos my)) as [q r]. simpl in Hq.
    apply binary_round_aux_nonneg, Hq.
Qed.

End DoubleFacts.

Lemma d1000000_positive : exists m e, d1000000 = S754_finite false m e.
Proof. vm_compute. eauto. Qed.

Lemma uint64_range (z : Z) : 0 <= uint64 z < 18446744073709551616.
Proof. unfold uint64. apply Z.mod_pos_bound. lia. Qed.

Lemma uint64_small (z : Z) : 0 <= z < 18446744073709551616 -> uint64 z = z.
Proof. intros H. unfold uint64. apply Z.mod_small, H. Qed.

Lemma uint8_small (z : Z) : 0 <= z < 256 -> uint8 z = z.
Proof. intros H. unfold uint8. apply Z.mod_small, H. Qed.

(** The low four bits, as a remainder. *)
Lemma land_0x0F (z : Z) : Z.land z 0x0F = z mod 16.
Proof. change 0x0F with (Z.ones 4). rewrite Z.land_ones by lia. reflexivity. Qed.

(** A bit that is clear under a mask is clear under any part of the mask. *)
Lemma land_submask (z mask sub : Z) :
  Z.land mask sub = sub -> Z.land z mask = 0 -> Z.land z sub = 0.
Proof.
  intros Hs Hz. rewrite <- Hs, Z.land_assoc, Hz. reflexivity.
Qed.

(** ** Decoding of the D-pad and of the buttons *)

(** C7. For a report the driver accepts, the D-pad value is the low four
    bits of status byte 3; the values 0 to 7 are the eight compass
    directions met clockwise from up, and 8 or more is neutral.  A report
    whose byte 1 is 0x08, with no button bit in bytes 2 and 3, decodes to
    the button A alone, in both drivers. *)
Theorem dpad_and_buttons_decode (report : list Z) (reportLength now : Z)
    (s : Neural.ControllerState) :
  3 <= reportLength ->
  let d := Basic.decode report in
  Basic.processInputReport report reportLength = Basic.print_line d /\
  Basic.dpad_state d = byte_at report 3 mod 16 /\
  (forall n : nat, (n < 8)%nat -> Basic.dpad_state d = Z.of_nat n ->
     Basic.dpad d = Nat.iter n Basic.clockwise Basic.Up) /\
  (8 <= Basic.dpad_state d -> Basic.dpad d = Basic.Neutral) /\
  (byte_at report 1 = 0x08 ->
   Z.land (byte_at report 2) 0x3F = 0 ->
   Z.land (byte_at report 3) 0x60 = 0 ->
     Basic.pressed d = [A] /\
     Neural.pressed report = [A] /\
     Neural.buttons (Neural.decode report reportLength now s) = 0x0008).
Proof.
  intros Hlen d.
  assert (Hstate : Basic.dpad_state d = byte_at report 3 mod 16).
  { unfold d, Basic.decode; simpl. rewrite land_0x0F.
    apply uint8_small.
    pose proof (Z.mod_pos_bound (byte_at report 3) 16 ltac:(lia)). lia. }
  assert (Hdpad : Basic.dpad d =
            if Basic.dpad_state d <? 8
            then nth (Z.to_nat (Basic.dpad_state d)) Basic.dpad_states Basic.Neutral
            else Basic.Neutral) by reflexivity.
  split; [|split; [exact Hstate|split; [|split]]].
  - unfold Basic.processInputReport.
    destruct (Z.ltb_spec reportLength 3); [lia|reflexivity].
  - intros n Hn Hv. rewrite Hdpad, Hv, Nat2Z.id.
    destruct (Z.ltb_spec (Z.of_nat n) 8); [|lia].
    do 8 (destruct n as [|n]; [reflexivity|]). lia.
  - intros Hv. rewrite Hdpad.
    destruct (Z.ltb_spec (Basic.dpad_state d) 8); [lia|reflexivity].
  - intros H1 H2 H3.
    pose proof (land_submask _ 0x3F 0x01 eq_refl H2) as M1.
    pose proof (land_submask _ 0x3F 0x02 eq_refl H2) as M2.
    pose proof (land_submask _ 0x3F 0x04 eq_refl H2) as M3.
    pose proof (land_submask _ 0x3F 0x08 eq_refl H2) as M4.
    pose proof (land_submask _ 0x3F 0x10 eq_refl H2) as M5.
    pose proof (land_submask _ 0x3F 0x20 eq_refl H2) as M6.
    pose proof (land_submask _ 0x60 0x20 eq_refl H3) as N1.
    pose proof (land_submask _ 0x60 0x40 eq_refl H3) as N2.
    unfold d, Basic.pressed, Basic.decode, Neural.pressed, Neural.decode,
      Neural.button_word; simpl.
    rewrite H1, M1, M2, M3, M4, M5, M6, N1, N2.
    repeat split; reflexivity.
Qed.

Lemma dpad_and_buttons_decode_witness :
  let report := [0; 0x08; 0; 0x02; 0; 0; 0x80; 0; 0x80; 0; 0x80; 0; 0x80; 0] in
  Basic.dpad (Basic.decode report) = Basic.Right /\
  Basic.pressed (Basic.decode report) = [A] /\
  Basic.processInputReport report 14 =
    [ {| Basic.line_buttons := [A]; Basic.line_dpad := Basic.Right;
         Basic.line_lstick := None; Basic.line_rstick := None |} ].
Proof.
  intros report.
  destruct (dpad_and_buttons_decode report 14 0 Neural.initialState ltac:(lia))
    as (Hprint & Hstate & Hdir & Hneutral & Hbuttons).
  split; [|split].
  - apply (Hdir 2%nat); [lia|reflexivity].
  - apply Hbuttons; reflexivity.
  - rewrite Hprint. reflexivity.
Defined.

(** ** Output reports *)

Import Neural.

(** The two bytes of a 16-bit value, low byte first. *)
Lemma little_endian_bytes (v : Z) :
  0 <= v < 65536 ->
  let lo := uint8 (Z.land v 0xFF) in
  let hi := uint8 (Z.shiftr v 8) in
  0 <= lo < 256 /\ 0 <= hi < 256 /\ lo + 256 * hi = v.
Proof.
  intros Hv lo hi. subst lo hi.
  change 0xFF with (Z.ones 8).
  rewrite Z.land_ones, Z.shiftr_div_pow2 by lia.
  change (2 ^ 8) with 256. unfold uint8.
  rewrite Z.mod_mod by lia.
  rewrite (Z.mod_small (v / 256) 256)
    by (split; [apply Z.div_pos; lia | apply Z.div_lt_upper_bound; lia]).
  pose proof (Z.mod_pos_bound v 256 ltac:(lia)).
  pose proof (Z.div_mod v 256 ltac:(lia)).
  assert (0 <= v / 256 < 256)
    by (split; [apply Z.div_pos; lia | apply Z.div_lt_upper_bound; lia]).
  lia.
Qed.

(** What [rumble] does with a device attached: one write of [rumbleData]
    under report ID 0x10, and the line on the console when the host accepts
    it. *)
Lemma rumble_connected (host : list HostWrite -> HostWrite -> Z)
    (lowFreq highFreq duration_ms : Z) (d : Driver) :
  connectedDevice d <> nullptr ->
  let w := {| hw_device := connectedDevice d; hw_reportID := 0x10;
              hw_data := rumbleData (uint16 lowFreq) (uint16 highFreq) |} in
  let d1 := log_write w d in
  rumble host lowFreq highFreq duration_ms d =
    if host (hostWrites d) w =? kIOReturnSuccess
    then print (PrintRumbleActivated (uint32 duration_ms)) d1
    else d1.
Proof.
  intros Hdev w d1. unfold rumble, IOHIDDeviceSetReport.
  destruct (Z.eqb_spec (connectedDevice d) nullptr); [contradiction|].
  reflexivity.
Qed.

Lemma rumble_disconnected (host : list HostWrite -> HostWrite -> Z)
    (lowFreq highFreq duration_ms : Z) (d : Driver) :
  connectedDevice d = nullptr ->
  rumble host lowFreq highFreq duration_ms d = d.
Proof.
  intros Hdev. unfold rumble. rewrite Hdev. reflexivity.
Qed.

Lemma setLEDPattern_connected (host : list HostWrite -> HostWrite -> Z)
    (pattern : Z) (d : Driver) :
  connectedDevice d <> nullptr ->
  let w := {| hw_device := connectedDevice d; hw_reportID := 0x01;
              hw_data := ledData (uint8 pattern) |} in
  let d1 := log_write w d in
  setLEDPattern host pattern d =
    if host (hostWrites d) w =? kIOReturnSuccess
    then print (PrintLEDPatternSet (uint8 pattern)) d1
    else d1.
Proof.
  intros Hdev w d1. unfold setLEDPattern, IOHIDDeviceSetReport.
  destruct (Z.eqb_spec (connectedDevice d) nullptr); [contradiction|].
  reflexivity.
Qed.

Lemma setLEDPattern_disconnected (host : list HostWrite -> HostWrite -> Z)
    (pattern : Z) (d : Driver) :
  connectedDevice d = nullptr ->
  setLEDPattern host pattern d = d.
Proof.
  intros Hdev. unfold setLEDPattern. rewrite Hdev. reflexivity.
Qed.

(** C2, as the code has it. For every pair of 16-bit frequencies the frame
    [rumble] writes has exactly 14 bytes: byte 0 is 0x10, byte 1 is 0x80,
    bytes 5 and 6 are the high-band frequency and bytes 7 and 8 the
    low-band frequency, low byte first, and every other byte is zero.  The
    frame depends on the two frequencies only: whatever the driver's state,
    the host and the duration, the same frame is written. *)
Theorem rumble_frame_layout (lowFreq highFreq : Z) :
  0 <= lowFreq < 65536 ->
  0 <= highFreq < 65536 ->
  let frame := rumbleData lowFreq highFreq in
  length frame = 14%nat /\
  nth 0 frame 0 = 0x10 /\
  nth 1 frame 0 = 0x80 /\
  (0 <= nth 5 frame 0 < 256 /\ 0 <= nth 6 frame 0 < 256 /\
   nth 5 frame 0 + 256 * nth 6 frame 0 = highFreq) /\
  (0 <= nth 7 frame 0 < 256 /\ 0 <= nth 8 frame 0 < 256 /\
   nth 7 frame 0 + 256 * nth 8 frame 0 = lowFreq) /\
  (forall i : nat,
     i <> 0%nat -> i <> 1%nat -> i <> 5%nat -> i <> 6%nat ->
     i <> 7%nat -> i <> 8%nat -> nth i frame 0 = 0) /\
  (forall host duration_ms d,
     connectedDevice d <> nullptr ->
     hostWrites (rumble host lowFreq highFreq duration_ms d) =
       hostWrites d ++
       [ {| hw_device := connectedDevice d; hw_reportID := 0x10;
            hw_data := frame |} ]).
Proof.
  intros Hlow Hhigh frame.
  split; [reflexivity|].
  split; [reflexivity|].
  split; [reflexivity|].
  split; [exact (little_endian_bytes highFreq Hhigh)|].
  split; [exact (little_endian_bytes lowFreq Hlow)|].
  split.
  - intros i H0 H1 H5 H6 H7 H8.
    do 14 (destruct i as [|i]; [try reflexivity; contradiction|]).
    destruct i; reflexivity.
  - intros host duration_ms d Hdev.
    rewrite (rumble_connected host _ _ _ d Hdev).
    unfold uint16. rewrite !Z.mod_small by lia.
    destruct (_ =? kIOReturnSuccess); reflexivity.
Qed.

Lemma rumble_frame_layout_witness :
  let frame := rumbleData 0x1234 0xABCD in
  length frame = 14%nat /\
  nth 5 frame 0 + 256 * nth 6 frame 0 = 0xABCD /\
  nth 7 frame 0 + 256 * nth 8 frame 0 = 0x1234.
Proof.
  intros frame.
  destruct (rumble_frame_layout 0x1234 0xABCD ltac:(lia) ltac:(lia))
    as (Hlen & _ & _ & (_ & _ & Hhigh) & (_ & _ & Hlow) & _).
  split; [exact Hlen|split; [exact Hhigh|exact Hlow]].
Defined.

(** C2 as written fails: the frame of the weak test rumble has 14 bytes,
    not 13, and its byte 1, which is neither the header nor a frequency
    byte, is 0x80. *)
Lemma rumble_frame_not_13_bytes :
  length (rumbleData 0x00 0x20) <> 13%nat /\
  rumbleData 0x00 0x20 = [0x10; 0x80; 0; 0; 0; 0x20; 0; 0; 0; 0; 0; 0; 0; 0] /\
  nth 1 (rumbleData 0x00 0x20) 0 <> 0.
Proof.
  split; [discriminate|]. split; [reflexivity|discriminate].
Qed.

(** C5, as the code has it. Without an attached device [rumble] and
    [setLEDPattern] return the driver as it is: no write reaches the host
    and no state changes.  With a device they write the encoded frame
    once, to that device.  They return nothing: the only trace of the
    host's result is the line for the command, which is printed exactly
    when the result is success.  A failed write prints nothing and leaves
    the driver as the write alone leaves it, whatever the result code. *)
Theorem commands_need_a_device (host : list HostWrite -> HostWrite -> Z)
    (lowFreq highFreq duration_ms pattern : Z) (d : Driver) :
  (connectedDevice d = nullptr ->
     rumble host lowFreq highFreq duration_ms d = d /\
     setLEDPattern host pattern d = d) /\
  (connectedDevice d <> nullptr ->
     let wr := {| hw_device := connectedDevice d; hw_reportID := 0x10;
                  hw_data := rumbleData (uint16 lowFreq) (uint16 highFreq) |} in
     let wl := {| hw_device := connectedDevice d; hw_reportID := 0x01;
                  hw_data := [0x01; uint8 pattern mod 16] |} in
     rumble host lowFreq highFreq duration_ms d =
       (if host (hostWrites d) wr =? kIOReturnSuccess
        then print (PrintRumbleActivated (uint32 duration_ms)) (log_write wr d)
        else log_write wr d) /\
     setLEDPattern host pattern d =
       (if host (hostWrites d) wl =? kIOReturnSuccess
        then print (PrintLEDPatternSet (uint8 pattern)) (log_write wl d)
        else log_write wl d) /\
     hostWrites (rumble host lowFreq highFreq duration_ms d) =
       hostWrites d ++ [wr] /\
     hostWrites (setLEDPattern host pattern d) = hostWrites d ++ [wl] /\
     (host (hostWrites d) wr = kIOReturnSuccess ->
        console (rumble host lowFreq highFreq duration_ms d) =
          console d ++ [PrintRumbleActivated (uint32 duration_ms)]) /\
     (host (hostWrites d) wr <> kIOReturnSuccess ->
        rumble host lowFreq highFreq duration_ms d = log_write wr d /\
        console (rumble host lowFreq highFreq duration_ms d) = console d) /\
     (host (hostWrites d) wl = kIOReturnSuccess ->
        console (setLEDPattern host pattern d) =
          console d ++ [PrintLEDPatternSet (uint8 pattern)]) /\
     (host (hostWrites d) wl <> kIOReturnSuccess ->
        setLEDPattern host pattern d = log_write wl d /\
        console (setLEDPattern host pattern d) = console d)).
Proof.
  split.
  - intros Hdev. split.
    + apply rumble_disconnected, Hdev.
    + apply setLEDPattern_disconnected, Hdev.
  - intros Hdev wr wl.
    assert (Hr := rumble_connected host lowFreq highFreq duration_ms d Hdev).
    assert (Hl : setLEDPattern host pattern d =
              (if host (hostWrites d) wl =? kIOReturnSuccess
               then print (PrintLEDPatternSet (uint8 pattern)) (log_write wl d)
               else log_write wl d)).
    { rewrite (setLEDPattern_connected host pattern d Hdev).
      assert (Hdata : ledData (uint8 pattern) = [0x01; uint8 pattern mod 16]).
      { unfold ledData. rewrite land_0x0F. f_equal. f_equal.
        apply uint8_small.
        pose proof (Z.mod_pos_bound (uint8 pattern) 16 ltac:(lia)). lia. }
      rewrite Hdata. reflexivity. }
    cbv zeta in Hr. fold wr in Hr.
    split; [exact Hr|]. split; [exact Hl|].
    rewrite Hr, Hl.
    destruct (Z.eqb_spec (host (hostWrites d) wr) kIOReturnSuccess) as [Er|Er];
      destruct (Z.eqb_spec (host (hostWrites d) wl) kIOReturnSuccess) as [El|El];
      (split; [reflexivity|]); (split; [reflexivity|]);
      repeat (split;
               [intros N; first [contradiction|reflexivity|split; reflexivity]|]);
      intros N; first [contradiction|reflexivity|split; reflexivity].
Qed.

Lemma commands_need_a_device_witness :
  let host := fun (_ : list HostWrite) (_ : HostWrite) => kIOReturnSuccess in
  let refuse := fun (_ : list HostWrite) (_ : HostWrite) => 1 in
  let d := set_connectedDevice 7 SwitchProController in
  rumble host 0x80 0xFF 500 SwitchProController = SwitchProController /\
  hostWrites (rumble host 0x80 0xFF 500 d) =
    [ {| hw_device := 7; hw_reportID := 0x10;
         hw_data := [0x10; 0x80; 0; 0; 0; 0xFF; 0; 0x80; 0; 0; 0; 0; 0; 0] |} ] /\
  console (rumble host 0x80 0xFF 500 d) = [PrintRumbleActivated 500] /\
  console (rumble refuse 0x80 0xFF 500 d) = [] /\
  console (setLEDPattern refuse 0x01 d) = [].
Proof.
  intros host refuse d. split; [|split; [|split; [|split]]].
  - apply (commands_need_a_device host 0x80 0xFF 500 0x01 SwitchProController).
    reflexivity.
  - destruct (commands_need_a_device host 0x80 0xFF 500 0x01 d) as [_ H].
    destruct (H ltac:(discriminate)) as (_ & _ & Hw & _).
    rewrite Hw. reflexivity.
  - destruct (commands_need_a_device host 0x80 0xFF 500 0x01 d) as [_ H].
    destruct (H ltac:(discriminate)) as (_ & _ & _ & _ & Hok & _).
    rewrite (Hok eq_refl). reflexivity.
  - destruct (commands_need_a_device refuse 0x80 0xFF 500 0x01 d) as [_ H].
    destruct (H ltac:(discriminate)) as (_ & _ & _ & _ & _ & Hfail & _).
    destruct (Hfail ltac:(discriminate)) as [_ Hc].
    rewrite Hc. reflexivity.
  - destruct (commands_need_a_device refuse 0x80 0xFF 500 0x01 d) as [_ H].
    destruct (H ltac:(discriminate)) as (_ & _ & _ & _ & _ & _ & _ & Hfail).
    destruct (Hfail ltac:(discriminate)) as [_ Hc].
    rewrite Hc. reflexivity.
Defined.

(** C5 as written fails: the commands do not report the write result.  With
    a device attached and a host that refuses the write, [rumble] and
    [setLEDPattern] make the write and print nothing, so the console is
    what it is after the no-op without a device; and two different
    failure codes leave exactly the same driver. *)
Lemma failed_write_is_not_reported :
  let refuse := fun (code : Z) (_ : list HostWrite) (_ : HostWrite) => code in
  let d := set_connectedDevice 7 SwitchProController in
  length (hostWrites (rumble (refuse 1) 0x80 0xFF 500 d)) = 1%nat /\
  console (rumble (refuse 1) 0x80 0xFF 500 d) = [] /\
  console (rumble (refuse 1) 0x80 0xFF 500 d) =
    console (rumble (refuse 1) 0x80 0xFF 500 SwitchProController) /\
  rumble (refuse 1) 0x80 0xFF 500 d = rumble (refuse 2) 0x80 0xFF 500 d /\
  length (hostWrites (setLEDPattern (refuse 1) 0x01 d)) = 1%nat /\
  console (setLEDPattern (refuse 1) 0x01 d) = [] /\
  setLEDPattern (refuse 1) 0x01 d = setLEDPattern (refuse 2) 0x01 d.
Proof.
  vm_compute. repeat split.
Qed.

(** ** The pipeline under the other operations *)

Lemma same_pipeline_refl (d : Driver) : same_pipeline d d.
Proof. repeat split. Qed.

Lemma same_pipeline_trans (d1 d2 d3 : Driver) :
  same_pipeline d1 d2 -> same_pipeline d2 d3 -> same_pipeline d1 d3.
Proof.
  intros (A1 & A2 & A3 & A4) (B1 & B2 & B3 & B4).
  repeat split; congruence.
Qed.

Lemma same_pipeline_print (c : Console) (d : Driver) :
  same_pipeline d (print c d).
Proof. repeat split. Qed.

Lemma same_pipeline_rumble host lowFreq highFreq duration_ms (d : Driver) :
  same_pipeline d (rumble host lowFreq highFreq duration_ms d).
Proof.
  unfold rumble, IOHIDDeviceSetReport.
  destruct (connectedDevice d =? nullptr); [apply same_pipeline_refl|].
  destruct (_ =? kIOReturnSuccess); repeat split.
Qed.

Lemma same_pipeline_setLEDPattern host pattern (d : Driver) :
  same_pipeline d (setLEDPattern host pattern d).
Proof.
  unfold setLEDPattern, IOHIDDeviceSetReport.
  destruct (connectedDevice d =? nullptr); [apply same_pipeline_refl|].
  destruct (_ =? kIOReturnSuccess); repeat split.
Qed.

Lemma same_pipeline_enableNeuralProcessing (enable : bool) (d : Driver) :
  same_pipeline d (enableNeuralProcessing enable d).
Proof.
  unfold enableNeuralProcessing.
  destruct enable, (processingThread_joinable d); repeat split.
Qed.

Lemma same_pipeline_deviceRemoved (d : Driver) :
  same_pipeline d (deviceRemoved d).
Proof. repeat split. Qed.

Lemma same_pipeline_deviceAdded host device (d : Driver) :
  same_pipeline d (deviceAdded host device d).
Proof.
  unfold deviceAdded, setupController, IOHIDDeviceSetReport.
  destruct (_ =? kIOReturnSuccess); [|repeat split].
  eapply same_pipeline_trans; [|apply same_pipeline_enableNeuralProcessing].
  eapply same_pipeline_trans; [|apply same_pipeline_rumble].
  eapply same_pipeline_trans; [|apply same_pipeline_setLEDPattern].
  repeat split.
Qed.

Lemma invariant_same_pipeline (d d' : Driver) :
  same_pipeline d d' -> invariant d -> invariant d'.
Proof.
  intros (Hq & Hs & _ & Hi). unfold invariant.
  rewrite Hq, Hs, Hi. trivial.
Qed.

(** ** The queue *)

Lemma enqueue_below (v : list double) (q : list (list double)) :
  (length q < 100)%nat -> enqueue v q = q ++ [v].
Proof.
  intros H. unfold enqueue.
  assert (E : (100 <? Z.of_nat (length (q ++ [v]))) = false).
  { apply Z.ltb_ge. rewrite length_app. simpl. lia. }
  rewrite E. reflexivity.
Qed.

Lemma enqueue_full (v oldest : list double) (rest : list (list double)) :
  length (oldest :: rest) = 100%nat ->
  enqueue v (oldest :: rest) = rest ++ [v].
Proof.
  intros H. unfold enqueue.
  assert (E : (100 <? Z.of_nat (length ((oldest :: rest) ++ [v]))) = true).
  { apply Z.ltb_lt. rewrite length_app, H. simpl. lia. }
  rewrite E. reflexivity.
Qed.

Lemma enqueue_length (v : list double) (q : list (list double)) :
  (length q <= 100)%nat -> (length (enqueue v q) <= 100)%nat.
Proof.
  intros H. destruct (Nat.eq_dec (length q) 100) as [E|E].
  - destruct q as [|oldest rest]; [discriminate E|].
    rewrite (enqueue_full v oldest rest E), length_app. simpl in *. lia.
  - rewrite enqueue_below by lia. rewrite length_app. simpl. lia.
Qed.

Lemma enqueue_Forall (P : list double -> Prop) v q :
  P v -> Forall P q -> Forall P (enqueue v q).
Proof.
  intros Hv Hq. unfold enqueue.
  assert (H : Forall P (q ++ [v])) by (apply Forall_app; auto).
  destruct (100 <? _); [|exact H].
  destruct (q ++ [v]); [constructor|]. inversion H; assumption.
Qed.

(** The time delta is 0.0, or a count of microseconds that is not negative
    divided by 1000000.0. *)
Lemma timeDelta_nonneg (s : ControllerState) (last : Z) :
  leb zero (nth 16 (fst (createFeatureVector s last)) one) = true.
Proof.
  unfold createFeatureVector; simpl.
  destruct (0 <? last); [|reflexivity].
  destruct d1000000_positive as (m & e & ->).
  apply div_nonneg, of_Z_nonneg, uint64_range.
Qed.

Lemma createFeatureVector_derived (s : ControllerState) (last : Z) :
  triggerL s = zero -> triggerR s = zero ->
  derived (fst (createFeatureVector s last)).
Proof.
  intros HL HR. unfold derived.
  split; [reflexivity|]. split; [exact HL|]. split; [exact HR|].
  apply timeDelta_nonneg.
Qed.

Lemma extractFeatures_enabled (s : ControllerState) (d : Driver) :
  processingEnabled d = true ->
  extractFeatures s d =
    set_featureQueue
      (enqueue (fst (createFeatureVector s (lastTimestamp d))) (featureQueue d))
      (set_lastTimestamp (timestamp s) d).
Proof. intros H. unfold extractFeatures. rewrite H. reflexivity. Qed.

Lemma extractFeatures_disabled (s : ControllerState) (d : Driver) :
  processingEnabled d = false -> extractFeatures s d = d.
Proof. intros H. unfold extractFeatures. rewrite H. reflexivity. Qed.

(** [processInputReport] on a report it accepts, field by field. *)
Lemma processInputReport_fields (report : list Z) (reportLength now : Z)
    (d : Driver) :
  3 <= reportLength ->
  let s := decode report reportLength now (currentState d) in
  let d' := processInputReport report reportLength now d in
  currentState d' = s /\
  featureQueue d' = featureQueue (extractFeatures s (set_currentState s d)) /\
  lastTimestamp d' = lastTimestamp (extractFeatures s (set_currentState s d)) /\
  inferenceCalls d' = inferenceCalls d /\
  hostWrites d' = hostWrites d /\
  connectedDevice d' = connectedDevice d /\
  processingEnabled d' = processingEnabled d.
Proof.
  intros Hlen s d'. subst d'. unfold processInputReport.
  destruct (Z.ltb_spec reportLength 3); [lia|]. fold s.
  assert (H' : forall e : Driver,
    e = extractFeatures s (set_currentState s d) ->
    currentState e = s /\ inferenceCalls e = inferenceCalls d /\
    hostWrites e = hostWrites d /\ connectedDevice e = connectedDevice d /\
    processingEnabled e = processingEnabled d).
  { intros e ->. destruct (processingEnabled d) eqn:E.
    - rewrite extractFeatures_enabled by exact E. simpl. auto.
    - rewrite extractFeatures_disabled by exact E. simpl. auto. }
  destruct (H' _ eq_refl) as (E1 & E2 & E3 & E4 & E5).
  destruct (pressed report); simpl; repeat split; assumption.
Qed.

Lemma invariant_processInputReport report reportLength now (d : Driver) :
  invariant d -> invariant (processInputReport report reportLength now d).
Proof.
  intros Hinv.
  destruct (Z.lt_ge_cases reportLength 3) as [Hlen|Hlen].
  - unfold processInputReport.
    destruct (Z.ltb_spec reportLength 3); [exact Hinv|lia].
  - destruct (processInputReport_fields report reportLength now d Hlen)
      as (Hs & Hq & _ & Hi & _).
    destruct Hinv as (Hlen100 & HL & HR & Hder & Hcalls).
    unfold invariant. rewrite Hs, Hq, Hi.
    assert (HL' : triggerL (decode report reportLength now (currentState d)) = zero)
      by exact HL.
    assert (HR' : triggerR (decode report reportLength now (currentState d)) = zero)
      by exact HR.
    split; [|split; [exact HL'|split; [exact HR'|split; [|exact Hcalls]]]].
    + destruct (processingEnabled d) eqn:E.
      * rewrite extractFeatures_enabled by exact E. simpl.
        apply enqueue_length, Hlen100.
      * rewrite extractFeatures_disabled by exact E. exact Hlen100.
    + destruct (processingEnabled d) eqn:E.
      * rewrite extractFeatures_enabled by exact E. simpl.
        apply enqueue_Forall; [|exact Hder].
        apply (createFeatureVector_derived _ _ HL' HR').
      * rewrite extractFeatures_disabled by exact E. exact Hder.
Qed.

(** ** The processing loop *)

Lemma neuralProcessingStep_empty host classify (d : Driver) :
  featureQueue d = [] -> neuralProcessingStep host classify d = d.
Proof. intros H. unfold neuralProcessingStep. rewrite H. reflexivity. Qed.

Lemma neuralProcessingStep_front host classify (d : Driver)
    (front : list double) (rest : list (list double)) :
  featureQueue d = front :: rest ->
  front <> [] ->
  let d2 := log_inference front (set_featureQueue rest d) in
  neuralProcessingStep host classify d =
    if String.eqb (classify (inferenceCalls d) front) "GESTURE_DETECTED"
    then print PrintGestureDetected (rumble host 0x30 0x30 50 d2)
    else d2.
Proof.
  intros Hq Hfront d2. unfold neuralProcessingStep. rewrite Hq.
  destruct front as [|x front']; [contradiction|].
  cbn [inferenceCalls set_featureQueue]. fold d2.
  destruct (String.eqb_spec (classify (inferenceCalls d) (x :: front'))
              "GESTURE_DETECTED") as [E|E].
  - rewrite E. reflexivity.
  - destruct (negb _ && negb _); reflexivity.
Qed.

(** ** What holds after any sequence of events *)

Lemma invariant_neuralProcessingStep host classify (d : Driver) :
  invariant d -> invariant (neuralProcessingStep host classify d).
Proof.
  intros Hinv. destruct (featureQueue d) as [|front rest] eqn:Hq.
  - rewrite neuralProcessingStep_empty by exact Hq. exact Hinv.
  - destruct Hinv as (Hlen & HL & HR & Hder & Hcalls).
    rewrite Hq in Hlen, Hder.
    assert (Hfront : derived front) by (inversion Hder; assumption).
    assert (Hrest : Forall derived rest) by (inversion Hder; assumption).
    assert (Hne : front <> []).
    { destruct Hfront as [H17 _]. intros ->. discriminate H17. }
    assert (Hd2 : invariant (log_inference front (set_featureQueue rest d))).
    { unfold invariant; simpl. simpl in Hlen.
      repeat split; try assumption; try lia.
      apply Forall_app; split; [exact Hcalls|]. constructor; [exact Hfront|constructor]. }
    rewrite (neuralProcessingStep_front host classify d front rest Hq Hne).
    destruct (String.eqb _ _); [|exact Hd2].
    eapply invariant_same_pipeline; [|exact Hd2].
    eapply same_pipeline_trans; [apply same_pipeline_rumble|].
    apply same_pipeline_print.
Qed.

Lemma invariant_step host classify (d : Driver) (e : Event) :
  invariant d -> invariant (step host classify d e).
Proof.
  intros Hinv. destruct e; simpl.
  - eapply invariant_same_pipeline; [apply same_pipeline_deviceAdded|exact Hinv].
  - eapply invariant_same_pipeline; [apply same_pipeline_deviceRemoved|exact Hinv].
  - unfold inputReport. destruct (negb _); [exact Hinv|].
    apply invariant_processInputReport, Hinv.
  - unfold neuralProcessingLoop. destruct (_ && _); [|exact Hinv].
    apply invariant_neuralProcessingStep, Hinv.
  - eapply invariant_same_pipeline; [apply same_pipeline_rumble|exact Hinv].
  - eapply invariant_same_pipeline; [apply same_pipeline_setLEDPattern|exact Hinv].
  - eapply invariant_same_pipeline;
      [apply same_pipeline_enableNeuralProcessing|exact Hinv].
  - eapply invariant_same_pipeline;
      [apply same_pipeline_enableNeuralProcessing|exact Hinv].
Qed.

Lemma invariant_fold host classify (events : list Event) :
  forall d, invariant d -> invariant (fold_left (step host classify) events d).
Proof.
  induction events as [|e events IH]; intros d Hinv; simpl.
  - exact Hinv.
  - apply IH, invariant_step, Hinv.
Qed.

Lemma invariant_run host classify (events : list Event) :
  invariant (run host classify events).
Proof.
  apply invariant_fold. unfold invariant; simpl.
  repeat split; try constructor. lia.
Qed.

(** ** The consumption step *)

(** C6. In every state the driver can reach: a step on an empty queue
    returns the driver as it is, so nothing is popped, the inference
    engine is not called and nothing is written or printed.  On a queue
    that is not empty the step pops exactly the front vector, gives it to
    the inference engine once, and calls [rumble(0x30, 0x30, 50)] exactly
    when the label is GESTURE_DETECTED; with any other label nothing is
    written to the host and nothing is printed. *)
Theorem consumption_step host classify (events : list Event) :
  let d := run host classify events in
  let d' := neuralProcessingStep host classify d in
  (featureQueue d = [] -> d' = d) /\
  (forall front rest,
     featureQueue d = front :: rest ->
     let label := classify (inferenceCalls d) front in
     let d2 := log_inference front (set_featureQueue rest d) in
     featureQueue d' = rest /\
     inferenceCalls d' = inferenceCalls d ++ [front] /\
     (label = "GESTURE_DETECTED" ->
        d' = print PrintGestureDetected (rumble host 0x30 0x30 50 d2) /\
        (connectedDevice d <> nullptr ->
           hostWrites d' = hostWrites d ++
             [ {| hw_device := connectedDevice d; hw_reportID := 0x10;
                  hw_data := [0x10; 0x80; 0; 0; 0; 0x30; 0; 0x30; 0;
                              0; 0; 0; 0; 0] |} ])) /\
     (label <> "GESTURE_DETECTED" ->
        d' = d2 /\ hostWrites d' = hostWrites d /\ console d' = console d)).
Proof.
  intros d d'.
  split; [apply neuralProcessingStep_empty|].
  intros front rest Hq label d2.
  assert (Hfront : front <> []).
  { destruct (invariant_run host classify events) as (_ & _ & _ & Hder & _).
    fold d in Hder. rewrite Hq in Hder. inversion Hder as [|v q [H17 _] _].
    intros ->. discriminate H17. }
  assert (Hstep := neuralProcessingStep_front host classify d front rest Hq Hfront).
  cbv zeta in Hstep. fold label d2 d' in Hstep.
  destruct (same_pipeline_rumble host 0x30 0x30 50 d2) as (Rq & _ & _ & Ri).
  destruct (String.eqb_spec label "GESTURE_DETECTED") as [E|E].
  - split; [rewrite Hstep; exact Rq|].
    split; [rewrite Hstep; exact Ri|].
    split; [|intros N; contradiction].
    intros _. split; [exact Hstep|].
    intros Hdev. rewrite Hstep.
    rewrite (rumble_connected host 0x30 0x30 50 d2 Hdev).
    destruct (_ =? kIOReturnSuccess); reflexivity.
  - split; [rewrite Hstep; reflexivity|].
    split; [rewrite Hstep; reflexivity|].
    split; [intros N; contradiction|].
    intros _. rewrite Hstep. repeat split.
Qed.

Lemma consumption_step_witness :
  let host := fun (_ : list HostWrite) (_ : HostWrite) => kIOReturnSuccess in
  let classify := fun (_ : list (list double)) (_ : list double) =>
                    "GESTURE_DETECTED" in
  let report := [0x30; 0; 0; 0; 0; 0; 0x80; 0; 0x80; 0; 0x80; 0; 0x80; 0] in
  let d0 := run host classify [DeviceAdded 7] in
  let d1 := run host classify [DeviceAdded 7; InputReport 0 report 14 1000000] in
  neuralProcessingStep host classify d0 = d0 /\
  featureQueue (neuralProcessingStep host classify d1) = [] /\
  inferenceCalls (neuralProcessingStep host classify d1) = featureQueue d1 /\
  hostWrites (neuralProcessingStep host classify d1) =
    hostWrites d1 ++
    [ {| hw_device := 7; hw_reportID := 0x10;
         hw_data := [0x10; 0x80; 0; 0; 0; 0x30; 0; 0x30; 0; 0; 0; 0; 0; 0] |} ].
Proof.
  intros host classify report d0 d1.
  split.
  - apply (consumption_step host classify [DeviceAdded 7]). reflexivity.
  - destruct (consumption_step host classify
                [DeviceAdded 7; InputReport 0 report 14 1000000]) as [_ H].
    fold d1 in H.
    destruct (H (fst (createFeatureVector
                        (decode report 14 1000000 initialState) 0)) []
                eq_refl) as (Hq & Hi & Hg & _).
    split; [exact Hq|split; [exact Hi|]].
    destruct (Hg eq_refl) as [_ Hw].
    apply Hw. discriminate.
Defined.

(** C4. After any sequence of events the queue holds at most 100 vectors.
    Enqueuing into a queue of 100 drops exactly the oldest vector and keeps
    the other 99 in their order, followed by the new one, so the queue
    holds 100 again; below 100 the vector is appended.  [enqueue] is a
    total function, and it is what [extractFeatures] does to the queue. *)
Theorem queue_bounded_drop_oldest host classify :
  (forall events,
     (length (featureQueue (run host classify events)) <= 100)%nat) /\
  (forall v oldest rest,
     length (oldest :: rest) = 100%nat ->
     enqueue v (oldest :: rest) = rest ++ [v] /\
     length (enqueue v (oldest :: rest)) = 100%nat) /\
  (forall v q, (length q < 100)%nat -> enqueue v q = q ++ [v]) /\
  (forall s d,
     processingEnabled d = true ->
     featureQueue (extractFeatures s d) =
       enqueue (fst (createFeatureVector s (lastTimestamp d))) (featureQueue d)).
Proof.
  split; [|split; [|split]].
  - intros events. apply (invariant_run host classify events).
  - intros v oldest rest H.
    rewrite (enqueue_full v oldest rest H). split; [reflexivity|].
    rewrite length_app. simpl in *. lia.
  - intros v q H. apply enqueue_below, H.
  - intros s d H. rewrite extractFeatures_enabled by exact H. reflexivity.
Qed.

Lemma queue_bounded_drop_oldest_witness :
  let vec := fun n : nat => [of_Z (Z.of_nat n)] in
  enqueue (vec 100%nat) (map vec (seq 0 100)) = map vec (seq 1 100).
Proof.
  intros vec.
  destruct (queue_bounded_drop_oldest (fun _ _ => 0) (fun _ _ => "NO_GESTURE"))
    as (_ & Hfull & _).
  change (map vec (seq 0 100)) with (vec 0%nat :: map vec (seq 1 99)).
  destruct (Hfull (vec 100%nat) (vec 0%nat) (map vec (seq 1 99)) eq_refl)
    as [Heq _].
  rewrite Heq. reflexivity.
Defined.

(** C9. After any sequence of events the trigger fields of the current
    state are 0.0, so for every report the vector derived from the decoded
    state has 0.0 at indices 4 and 5; the same holds of every vector in the
    queue and of every vector given to the inference engine. *)
Theorem trigger_elements_are_zero host classify (events : list Event) :
  let d := run host classify events in
  let zero_triggers := fun v : list double =>
    nth 4 v one = zero /\ nth 5 v one = zero in
  triggerL (currentState d) = zero /\
  triggerR (currentState d) = zero /\
  (forall report reportLength now last,
     zero_triggers
       (fst (createFeatureVector
               (decode report reportLength now (currentState d)) last))) /\
  Forall zero_triggers (featureQueue d) /\
  Forall zero_triggers (inferenceCalls d).
Proof.
  intros d zero_triggers.
  destruct (invariant_run host classify events) as (_ & HL & HR & Hq & Hc).
  fold d in HL, HR, Hq, Hc.
  split; [exact HL|]. split; [exact HR|]. split; [|split].
  - intros report reportLength now last. split; simpl; assumption.
  - eapply Forall_impl; [|exact Hq]. intros v (_ & H4 & H5 & _). split; assumption.
  - eapply Forall_impl; [|exact Hc]. intros v (_ & H4 & H5 & _). split; assumption.
Qed.

(** ** Short reports and the disabled pipeline *)

(** C3, as the code has it. A report shorter than 3 bytes is dropped:
    [processInputReport] returns the driver as it is, nothing is decoded
    and nothing is enqueued.  A report of 4 to 12 bytes is decoded as far
    as it reaches: timestamp and buttons always, the left stick from 9
    bytes on, and the right stick keeps its value. *)
Theorem short_report_dropped (report : list Z) (reportLength now : Z)
    (d : Driver) :
  (reportLength < 3 -> processInputReport report reportLength now d = d) /\
  (4 <= reportLength <= 12 ->
     let s := currentState (processInputReport report reportLength now d) in
     timestamp s = uint64 now /\
     buttons s = button_word (byte_at report 1) (byte_at report 3) /\
     rightStickX s = rightStickX (currentState d) /\
     rightStickY s = rightStickY (currentState d) /\
     (reportLength <= 8 ->
        leftStickX s = leftStickX (currentState d) /\
        leftStickY s = leftStickY (currentState d)) /\
     (8 < reportLength ->
        leftStickX s = div (of_Z (byte_at report 6)) d255 /\
        leftStickY s = div (of_Z (byte_at report 8)) d255)).
Proof.
  split.
  - intros H. unfold processInputReport.
    destruct (Z.ltb_spec reportLength 3); [reflexivity|lia].
  - intros H s.
    destruct (processInputReport_fields report reportLength now d ltac:(lia))
      as (Hs & _).
    subst s. rewrite Hs. unfold decode; simpl.
    destruct (Z.ltb_spec 12 reportLength); [lia|].
    destruct (Z.ltb_spec 8 reportLength); repeat split; lia.
Qed.

Lemma short_report_dropped_witness :
  processInputReport [0x30; 0x08] 2 1000000 SwitchProController
    = SwitchProController /\
  buttons (currentState
    (processInputReport [0x30; 0x08; 0; 0; 0; 0] 6 1000000 SwitchProController))
    = 0x0008.
Proof.
  split.
  - apply (short_report_dropped [0x30; 0x08] 2 1000000 SwitchProController).
    lia.
  - destruct (short_report_dropped [0x30; 0x08; 0; 0; 0; 0] 6 1000000
                SwitchProController) as [_ H].
    destruct (H ltac:(lia)) as (_ & Hb & _).
    rewrite Hb. reflexivity.
Defined.

(** C3 as written fails: a report of 12 bytes, shorter than 13, is decoded;
    it changes the current state, and with processing enabled a feature
    vector is enqueued. *)
Lemma report_of_12_bytes_is_decoded :
  let d := enableNeuralProcessing true SwitchProController in
  let d' := processInputReport [0x30; 0x08; 0; 0; 0; 0; 0x80; 0; 0x80; 0; 0x80; 0]
              12 1000000 d in
  12 < 13 /\
  buttons (currentState d) = 0 /\ buttons (currentState d') = 0x0008 /\
  timestamp (currentState d) = 0 /\ timestamp (currentState d') = 1000000 /\
  featureQueue d = [] /\ length (featureQueue d') = 1%nat /\
  d' <> d.
Proof.
  vm_compute. repeat split; try reflexivity. discriminate.
Qed.

(** C10. With processing disabled, [processInputReport] leaves the queue,
    the static [lastTimestamp] and the inference engine alone, whatever the
    report; and a full report (13 bytes or more) still sets the buttons,
    the four stick axes and the timestamp of the current state. *)
Theorem disabled_pipeline_keeps_queue (report : list Z)
    (reportLength now : Z) (d : Driver) :
  processingEnabled d = false ->
  let d' := processInputReport report reportLength now d in
  featureQueue d' = featureQueue d /\
  lastTimestamp d' = lastTimestamp d /\
  inferenceCalls d' = inferenceCalls d /\
  (12 < reportLength ->
     buttons (currentState d') =
       button_word (byte_at report 1) (byte_at report 3) /\
     leftStickX (currentState d') = div (of_Z (byte_at report 6)) d255 /\
     leftStickY (currentState d') = div (of_Z (byte_at report 8)) d255 /\
     rightStickX (currentState d') = div (of_Z (byte_at report 10)) d255 /\
     rightStickY (currentState d') = div (of_Z (byte_at report 12)) d255 /\
     timestamp (currentState d') = uint64 now).
Proof.
  intros Hoff d'.
  destruct (Z.lt_ge_cases reportLength 3) as [Hlen|Hlen].
  - assert (E : d' = d).
    { unfold d', processInputReport.
      destruct (Z.ltb_spec reportLength 3); [reflexivity|lia]. }
    rewrite E. split; [reflexivity|]. split; [reflexivity|].
    split; [reflexivity|]. intros H12. lia.
  - destruct (processInputReport_fields report reportLength now d Hlen)
      as (Hs & Hq & Ht & Hi & _).
    fold d' in Hs, Hq, Ht, Hi.
    rewrite extractFeatures_disabled in Hq, Ht by exact Hoff.
    split; [exact Hq|]. split; [exact Ht|]. split; [exact Hi|].
    intros H12. rewrite Hs. unfold decode; simpl.
    destruct (Z.ltb_spec 12 reportLength); [|lia].
    destruct (Z.ltb_spec 8 reportLength); [|lia].
    repeat split.
Qed.

Lemma disabled_pipeline_keeps_queue_witness :
  let report := [0x30; 0x08; 0; 0; 0; 0; 0xFF; 0; 0; 0; 0xFF; 0; 0; 0] in
  let d' := processInputReport report 14 1000000 SwitchProController in
  featureQueue d' = [] /\
  buttons (currentState d') = 0x0008 /\
  leftStickX (currentState d') = one /\
  timestamp (currentState d') = 1000000.
Proof.
  intros report d'.
  destruct (disabled_pipeline_keeps_queue report 14 1000000 SwitchProController
              eq_refl) as (Hq & _ & _ & H).
  destruct (H ltac:(lia)) as (Hb & Hx & _ & _ & _ & Ht).
  fold d' in Hq, Hb, Hx, Ht.
  split; [exact Hq|]. split; [rewrite Hb; reflexivity|].
  split; [rewrite Hx; vm_compute; reflexivity|rewrite Ht; reflexivity].
Defined.

(** ** The time delta *)

#[warnings="-inexact-float"]
Example literal_0_016 : Prim2SF 0.016%float = d0_016.
Proof. vm_compute. reflexivity. Qed.

(** C8, as the code has it. The time delta (index 16) is 0.0 while the
    static [lastTimestamp] is 0, which it is when the driver starts, so the
    first derived sample has delta 0.0.  Each derived sample stores its
    timestamp there, and enabling or disabling the pipeline does not reset
    it.  From then on the delta is the current timestamp minus the stored
    one, as a double, divided by 1000000.0 (16000 microseconds give the
    double nearest to 0.016).  It is never below 0.0, in any vector of the
    queue after any sequence of events. *)
Theorem time_delta (s : ControllerState) (last : Z) :
  let delta := nth 16 (fst (createFeatureVector s last)) one in
  lastTimestamp SwitchProController = 0 /\
  (last = 0 -> delta = zero) /\
  snd (createFeatureVector s last) = timestamp s /\
  (forall enable d,
     lastTimestamp (enableNeuralProcessing enable d) = lastTimestamp d) /\
  (forall report reportLength now d,
     processingEnabled d = true -> 3 <= reportLength ->
     let s' := decode report reportLength now (currentState d) in
     let d' := processInputReport report reportLength now d in
     timestamp s' = uint64 now /\
     lastTimestamp d' = uint64 now /\
     featureQueue d' =
       enqueue (fst (createFeatureVector s' (lastTimestamp d))) (featureQueue d)) /\
  (0 < last -> last <= timestamp s < 18446744073709551616 ->
     delta = div (of_Z (timestamp s - last)) d1000000) /\
  (0 < last -> timestamp s - last = 16000 -> delta = d0_016) /\
  leb zero delta = true /\
  (forall host classify events,
     Forall (fun v => leb zero (nth 16 v one) = true)
            (featureQueue (run host classify events))).
Proof.
  intros delta.
  assert (Hdelta : delta =
            if 0 <? last
            then div (of_Z (uint64 (timestamp s - last))) d1000000
            else zero) by reflexivity.
  split; [reflexivity|]. split; [|split; [reflexivity|split; [|split]]].
  - intros ->. exact Hdelta.
  - intros enable d. apply (same_pipeline_enableNeuralProcessing enable d).
  - intros report reportLength now d Hon Hlen s' d'.
    destruct (processInputReport_fields report reportLength now d Hlen)
      as (_ & Hq & Ht & _).
    fold s' d' in Hq, Ht.
    rewrite extractFeatures_enabled in Hq, Ht by exact Hon.
    split; [reflexivity|]. split; [exact Ht|exact Hq].
  - split; [|split; [|split]].
    + intros Hpos Hrange. rewrite Hdelta.
      destruct (Z.ltb_spec 0 last); [|lia].
      rewrite uint64_small by lia. reflexivity.
    + intros Hpos H16. rewrite Hdelta, H16.
      destruct (Z.ltb_spec 0 last); [|lia].
      vm_compute. reflexivity.
    + apply timeDelta_nonneg.
    + intros host classify events.
      destruct (invariant_run host classify events) as (_ & _ & _ & Hq & _).
      eapply Forall_impl; [|exact Hq]. intros v (_ & _ & _ & H). exact H.
Qed.

Lemma time_delta_witness :
  let s := decode (repeat 0 14) 14 1716000 initialState in
  nth 16 (fst (createFeatureVector s 0)) one = zero /\
  nth 16 (fst (createFeatureVector s 1700000)) one = d0_016 /\
  nth 16 (fst (createFeatureVector s 716000)) one = div (of_Z 1000000) d1000000.
Proof.
  intros s.
  split; [|split].
  - destruct (time_delta s 0) as (_ & H & _). apply H. reflexivity.
  - destruct (time_delta s 1700000) as (_ & _ & _ & _ & _ & _ & H & _).
    apply H; [lia|reflexivity].
  - destruct (time_delta s 716000) as (_ & _ & _ & _ & _ & H & _).
    apply H; [lia|]. vm_compute. split; [discriminate|reflexivity].
Defined.

(** C8 as written fails: the first sample after the pipeline is disabled
    and enabled again carries the time since the last sample before the
    restart, here two seconds, not 0.0. *)
Lemma first_delta_after_restart_is_not_zero :
  let report := repeat 0 14 in
  let d1 := processInputReport report 14 1000000
              (enableNeuralProcessing true SwitchProController) in
  let d2 := enableNeuralProcessing true (enableNeuralProcessing false d1) in
  let d3 := processInputReport report 14 3000000 d2 in
  map (fun v => nth 16 v one) (featureQueue d1) = [zero] /\
  map (fun v => nth 16 v one) (featureQueue d3) = [zero; of_Z 2] /\
  of_Z 2 <> zero.
Proof.
  vm_compute. repeat split; try reflexivity. discriminate.
Qed.

(** ** From the reports to the inference engine *)

Lemma neuralProcessingStep_pops host classify (d : Driver)
    (front : list double) (rest : list (list double)) :
  featureQueue d = front :: rest ->
  front <> [] ->
  featureQueue (neuralProcessingStep host classify d) = rest /\
  inferenceCalls (neuralProcessingStep host classify d) =
    inferenceCalls d ++ [front].
Proof.
  intros Hq Hfront.
  rewrite (neuralProcessingStep_front host classify d front rest Hq Hfront).
  destruct (same_pipeline_rumble host 0x30 0x30 50
              (log_inference front (set_featureQueue rest d)))
    as (Rq & _ & _ & Ri).
  destruct (String.eqb _ _); simpl; [|split; reflexivity].
  split; [exact Rq|exact Ri].
Qed.

(** C1, on the code. The three reports (no button, A and B, no button) are
    decoded, derived and enqueued, then three steps of the processing loop
    give the three vectors to the inference engine in that order.  The
    report with A and B pressed prints "A B", but its button flags are
    {0,0,1,1,0,0,0,0}: the decoder stores A and B in the bits 0x0008 and
    0x0004, which [createFeatureVector] reads as Y and X. *)
Theorem A_and_B_raise_the_X_and_Y_flags host classify :
  let neutral := [0x30; 0; 0; 0; 0; 0; 0x80; 0; 0x80; 0; 0x80; 0; 0x80; 0] in
  let a_and_b := [0x30; 0x0C; 0; 0; 0; 0; 0x80; 0; 0x80; 0; 0x80; 0; 0x80; 0] in
  let d0 := enableNeuralProcessing true SwitchProController in
  let d3 := processInputReport neutral 14 1032000
              (processInputReport a_and_b 14 1016000
                (processInputReport neutral 14 1000000 d0)) in
  let d6 := neuralProcessingStep host classify
              (neuralProcessingStep host classify
                (neuralProcessingStep host classify d3)) in
  console d3 = [PrintNeuralEnabled; PrintButtons [A; B]] /\
  featureQueue d6 = [] /\
  inferenceCalls d6 = featureQueue d3 /\
  map button_flags (inferenceCalls d6) =
    [ [zero; zero; zero; zero; zero; zero; zero; zero];
      [zero; zero; one; one; zero; zero; zero; zero];
      [zero; zero; zero; zero; zero; zero; zero; zero] ].
Proof.
  intros neutral a_and_b d0 d3 d6.
  assert (Hq : exists v1 v2 v3,
            featureQueue d3 = [v1; v2; v3] /\ inferenceCalls d3 = [] /\
            v1 <> [] /\ v2 <> [] /\ v3 <> [] /\
            map button_flags [v1; v2; v3] =
              [ [zero; zero; zero; zero; zero; zero; zero; zero];
                [zero; zero; one; one; zero; zero; zero; zero];
                [zero; zero; zero; zero; zero; zero; zero; zero] ]).
  { vm_compute. do 3 eexists.
    split; [reflexivity|]. split; [reflexivity|].
    repeat (split; [discriminate|]). reflexivity. }
  destruct Hq as (v1 & v2 & v3 & Hq3 & Hi3 & N1 & N2 & N3 & Hflags).
  destruct (neuralProcessingStep_pops host classify d3 v1 [v2; v3] Hq3 N1)
    as (Hq4 & Hi4).
  destruct (neuralProcessingStep_pops host classify _ v2 [v3] Hq4 N2)
    as (Hq5 & Hi5).
  destruct (neuralProcessingStep_pops host classify _ v3 [] Hq5 N3)
    as (Hq6 & Hi6).
  fold d6 in Hq6, Hi6.
  rewrite Hi5, Hi4, Hi3 in Hi6. simpl in Hi6.
  split; [vm_compute; reflexivity|]. split; [exact Hq6|].
  split; [rewrite Hi6, Hq3; reflexivity|].
  rewrite Hi6. exact Hflags.
Qed.

(** * Further properties of the code *)

(** ** Normalisation of the stick bytes *)

Lemma bytes_In (b : Z) : 0 <= b < 256 -> In b bytes.
Proof.
  intros H. unfold bytes. rewrite <- (Z2Nat.id b) by lia.
  apply in_map, in_seq. lia.
Qed.

Lemma bytes_forall (P : Z -> bool) :
  forallb P bytes = true -> forall b, 0 <= b < 256 -> P b = true.
Proof.
  intros H b Hb. rewrite forallb_forall in H. apply H, bytes_In, Hb.
Qed.

Lemma byte_at_range (report : list Z) (i : nat) : 0 <= byte_at report i < 256.
Proof. unfold byte_at, uint8. apply Z.mod_pos_bound. lia. Qed.

Lemma strictly_increasing_nth (l : list double) (d : double) :
  strictly_increasing l = true ->
  forall i j : nat, (i < j < length l)%nat ->
  ltb (nth i l d) (nth j l d) = true.
Proof.
  induction l as [|x rest IH]; intros H i j Hij; simpl in *; [lia|].
  apply andb_prop in H. destruct H as [Hx Hrest].
  destruct j as [|j]; [lia|]. destruct i as [|i].
  - rewrite forallb_forall in Hx. apply Hx, nth_In. lia.
  - apply IH; [exact Hrest|lia].
Qed.

Lemma normalise_nth (n : nat) :
  (n < 256)%nat -> nth n (map normalise bytes) zero = normalise (Z.of_nat n).
Proof.
  intros H. unfold bytes.
  rewrite (nth_indep _ zero (normalise (Z.of_nat 0)))
    by (rewrite !length_map, length_seq; exact H).
  rewrite map_map, (map_nth (fun k => normalise (Z.of_nat k))), seq_nth by exact H.
  reflexivity.
Qed.

Lemma normalise_in_unit (b : Z) : 0 <= b < 256 -> in_unit (normalise b) = true.
Proof.
  apply (bytes_forall (fun b => in_unit (normalise b))).
  vm_compute. reflexivity.
Qed.

Lemma normalise_increasing (b b' : Z) :
  0 <= b -> b < b' -> b' < 256 -> ltb (normalise b) (normalise b') = true.
Proof.
  intros H0 Hlt H256.
  assert (Hinc : strictly_increasing (map normalise bytes) = true)
    by (vm_compute; reflexivity).
  pose proof (strictly_increasing_nth _ zero Hinc (Z.to_nat b) (Z.to_nat b')) as H.
  rewrite !normalise_nth, !Z2Nat.id in H by lia.
  apply H. unfold bytes. rewrite !length_map, length_seq. lia.
Qed.

Lemma normalise_not_half (b : Z) : 0 <= b < 256 -> normalise b <> half.
Proof.
  intros Hb E.
  destruct (Z.le_gt_cases b 127) as [Hle|Hgt].
  - assert (H : ltb (normalise b) (normalise 128) = true).
    { destruct (Z.eq_dec b 127) as [->|N]; [vm_compute; reflexivity|].
      apply normalise_increasing; lia. }
    assert (H1 : ltb (normalise 127) half = true) by (vm_compute; reflexivity).
    destruct (Z.eq_dec b 127) as [->|N].
    + rewrite E in H1. vm_compute in H1. discriminate H1.
    + assert (H2 : ltb (normalise b) (normalise 127) = true)
        by (apply normalise_increasing; lia).
      rewrite E in H2. vm_compute in H2. discriminate H2.
  - destruct (Z.eq_dec b 128) as [->|N].
    + vm_compute in E. discriminate E.
    + assert (H2 : ltb (normalise 128) (normalise b) = true)
        by (apply normalise_increasing; lia).
      rewrite E in H2. vm_compute in H2. discriminate H2.
Qed.

(** X1. A report of 13 bytes or more sets the four stick fields to bytes 6,
    8, 10 and 12 divided by 255.0.  Each field then lies between 0.0 and
    1.0, byte 0 gives exactly 0.0 and byte 255 exactly 1.0, a larger byte
    gives a strictly larger field, and no byte gives the 0.5 the
    constructor starts from (the centre byte 0x80 gives 128/255). *)
Theorem stick_bytes_are_normalised (report : list Z) (reportLength now : Z)
    (s : Neural.ControllerState) :
  12 < reportLength ->
  let s' := Neural.decode report reportLength now s in
  axes s' = map normalise [ byte_at report 6; byte_at report 8;
                            byte_at report 10; byte_at report 12 ] /\
  Forall (fun x => in_unit x = true /\ x <> half) (axes s') /\
  normalise 0 = zero /\ normalise 255 = one /\
  (forall b b', 0 <= b -> b < b' -> b' < 256 ->
     ltb (normalise b) (normalise b') = true).
Proof.
  intros Hlen s'.
  assert (Haxes : axes s' = map normalise [ byte_at report 6; byte_at report 8;
                            byte_at report 10; byte_at report 12 ]).
  { unfold s', axes, Neural.decode; simpl.
    destruct (Z.ltb_spec 12 reportLength); [|lia].
    destruct (Z.ltb_spec 8 reportLength); [|lia]. reflexivity. }
  split; [exact Haxes|]. split; [|split; [|split]].
  - rewrite Haxes. simpl.
    repeat constructor;
      first [apply normalise_in_unit | apply normalise_not_half];
      apply byte_at_range.
  - vm_compute. reflexivity.
  - vm_compute. reflexivity.
  - exact normalise_increasing.
Qed.

Lemma stick_bytes_are_normalised_witness :
  let report := [0x30; 0; 0; 0; 0; 0; 0xFF; 0; 0x00; 0; 0x80; 0; 0x7F; 0] in
  axes (Neural.decode report 14 1000000 Neural.initialState) =
    [one; zero; normalise 128; normalise 127] /\
  ltb (normalise 127) (normalise 128) = true.
Proof.
  intros report.
  destruct (stick_bytes_are_normalised report 14 1000000 Neural.initialState
              ltac:(lia)) as (Haxes & _ & H0 & H255 & Hinc).
  split.
  - rewrite Haxes. simpl. rewrite <- H0, <- H255. reflexivity.
  - apply Hinc; lia.
Defined.

(** ** Induction over the runs of the driver *)

(** The fields [neuralProcessingStep] touches, whatever the front vector. *)
Lemma neuralProcessingStep_fields host classify (d : Driver) :
  let d' := neuralProcessingStep host classify d in
  featureQueue d' = tl (featureQueue d) /\
  inferenceCalls d' =
    inferenceCalls d ++
    match featureQueue d with
    | (x :: front) :: _ => [x :: front]
    | _ => []
    end /\
  currentState d' = currentState d /\
  lastTimestamp d' = lastTimestamp d /\
  connectedDevice d' = connectedDevice d /\
  processingEnabled d' = processingEnabled d /\
  processingThread_joinable d' = processingThread_joinable d.
Proof.
  intros d'. subst d'.
  destruct (featureQueue d) as [|front rest] eqn:Hq.
  - rewrite neuralProcessingStep_empty by exact Hq.
    rewrite Hq, app_nil_r. repeat split.
  - destruct front as [|x front].
    + unfold neuralProcessingStep. rewrite Hq. simpl.
      rewrite app_nil_r. repeat split.
    + rewrite (neuralProcessingStep_front host classify d (x :: front) rest Hq)
        by discriminate.
      set (d2 := log_inference (x :: front) (set_featureQueue rest d)).
      assert (H2 : forall e : Driver, same_pipeline d2 e ->
                connectedDevice e = connectedDevice d ->
                processingEnabled e = processingEnabled d ->
                processingThread_joinable e = processingThread_joinable d ->
                featureQueue e = rest /\
                inferenceCalls e = inferenceCalls d ++ [x :: front] /\
                currentState e = currentState d /\
                lastTimestamp e = lastTimestamp d /\
                connectedDevice e = connectedDevice d /\
                processingEnabled e = processingEnabled d /\
                processingThread_joinable e = processingThread_joinable d).
      { intros e (Eq & Es & Et & Ei) Ec Ep Ej.
        rewrite Eq, Es, Et, Ei. repeat split; assumption. }
      destruct (String.eqb _ _).
      * apply H2.
        -- eapply same_pipeline_trans;
             [apply same_pipeline_rumble|apply same_pipeline_print].
        -- unfold rumble, IOHIDDeviceSetReport.
           destruct (connectedDevice d2 =? nullptr); [reflexivity|].
           destruct (_ =? kIOReturnSuccess); reflexivity.
        -- unfold rumble, IOHIDDeviceSetReport.
           destruct (connectedDevice d2 =? nullptr); [reflexivity|].
           destruct (_ =? kIOReturnSuccess); reflexivity.
        -- unfold rumble, IOHIDDeviceSetReport.
           destruct (connectedDevice d2 =? nullptr); [reflexivity|].
           destruct (_ =? kIOReturnSuccess); reflexivity.
      * apply H2; [apply same_pipeline_refl|reflexivity..].
Qed.

Section PipelineInvariant.

(** A property [S] of the current state that the constructor establishes
    and every decoded report keeps, and a property [P] of the vectors
    derived from such states, hold after any sequence of events: [S] of the
    current state, [P] of every vector in the queue and of every vector
    given to the inference engine. *)
Variable S : ControllerState -> Prop.
Variable P : list double -> Prop.
Hypothesis S_constructor : S initialState.
Hypothesis S_decode :
  forall report reportLength now s, S s -> S (decode report reportLength now s).
Hypothesis P_derived :
  forall s last, S s -> P (fst (createFeatureVector s last)).

Let holds (d : Driver) : Prop :=
  S (currentState d) /\ Forall P (featureQueue d) /\ Forall P (inferenceCalls d).

Lemma holds_same_pipeline (d d' : Driver) :
  same_pipeline d d' -> holds d -> holds d'.
Proof.
  intros (Hq & Hs & _ & Hi). unfold holds. rewrite Hq, Hs, Hi. trivial.
Qed.

Lemma holds_step host classify (d : Driver) (e : Event) :
  holds d -> holds (step host classify d e).
Proof.
  intros Hd. destruct e; simpl.
  - eapply holds_same_pipeline; [apply same_pipeline_deviceAdded|exact Hd].
  - eapply holds_same_pipeline; [apply same_pipeline_deviceRemoved|exact Hd].
  - unfold inputReport. destruct (negb _); [exact Hd|].
    destruct (Z.lt_ge_cases reportLength 3) as [Hlen|Hlen].
    + unfold processInputReport.
      destruct (Z.ltb_spec reportLength 3); [exact Hd|lia].
    + destruct (processInputReport_fields report reportLength now d Hlen)
        as (Hs & Hq & _ & Hi & _).
      destruct Hd as (HS & HQ & HI). unfold holds. rewrite Hs, Hq, Hi.
      pose proof (S_decode report reportLength now _ HS) as HS'.
      split; [exact HS'|]. split; [|exact HI].
      destruct (processingEnabled d) eqn:E.
      * rewrite extractFeatures_enabled by exact E.
        cbn [featureQueue set_featureQueue set_lastTimestamp set_currentState
             lastTimestamp].
        apply enqueue_Forall; [apply P_derived, HS'|exact HQ].
      * rewrite extractFeatures_disabled by exact E. exact HQ.
  - unfold neuralProcessingLoop. destruct (_ && _); [|exact Hd].
    destruct (neuralProcessingStep_fields host classify d)
      as (Hq & Hi & Hs & _).
    destruct Hd as (HS & HQ & HI). unfold holds. rewrite Hq, Hi, Hs.
    split; [exact HS|]. split.
    + destruct (featureQueue d); [constructor|]. inversion HQ; assumption.
    + apply Forall_app. split; [exact HI|].
      destruct (featureQueue d) as [|[|x front] rest]; try constructor.
      * inversion HQ; assumption.
      * constructor.
  - eapply holds_same_pipeline; [apply same_pipeline_rumble|exact Hd].
  - eapply holds_same_pipeline; [apply same_pipeline_setLEDPattern|exact Hd].
  - eapply holds_same_pipeline;
      [apply same_pipeline_enableNeuralProcessing|exact Hd].
  - eapply holds_same_pipeline;
      [apply same_pipeline_enableNeuralProcessing|exact Hd].
Qed.

Lemma holds_fold host classify (events : list Event) :
  forall d, holds d -> holds (fold_left (step host classify) events d).
Proof.
  induction events as [|e events IH]; intros d Hd; simpl.
  - exact Hd.
  - apply IH, holds_step, Hd.
Qed.

Lemma pipeline_invariant host classify (events : list Event) :
  let d := run host classify events in
  S (currentState d) /\ Forall P (featureQueue d) /\ Forall P (inferenceCalls d).
Proof.
  apply (holds_fold host classify events SwitchProController).
  split; [exact S_constructor|]. split; constructor.
Qed.

End PipelineInvariant.

(** ** Ranges of the elements of a feature vector *)

Lemma flag_is_flag (buttons mask : Z) : is_flag (flag buttons mask).
Proof. unfold is_flag, flag. destruct (truthy _); auto. Qed.

Lemma sums_in_magnitude_range_In (squares : list double) (bound : double) :
  sums_in_magnitude_range squares bound = true ->
  forall sx sy, In sx squares -> In sy squares ->
  leb zero (sqrt (add sx sy)) && leb (sqrt (add sx sy)) bound = true.
Proof.
  intros H sx sy Hx Hy. unfold sums_in_magnitude_range in H.
  rewrite forallb_forall in H. specialize (H sx Hx).
  rewrite forallb_forall in H. exact (H sy Hy).
Qed.

(** The 65536 pairs of bytes, checked by computation. *)
Lemma byte_magnitudes_checked :
  sums_in_magnitude_range
    (map (fun b => mul (normalise b) (normalise b)) bytes) sqrt2 = true.
Proof. vm_compute. reflexivity. Qed.

Lemma magnitude_of_bytes (bx by_ : Z) :
  0 <= bx < 256 -> 0 <= by_ < 256 ->
  in_magnitude_range
    (sqrt (add (mul (normalise bx) (normalise bx))
               (mul (normalise by_) (normalise by_)))) = true.
Proof.
  intros Hx Hy.
  apply (sums_in_magnitude_range_In _ _ byte_magnitudes_checked
           (mul (normalise bx) (normalise bx))
           (mul (normalise by_) (normalise by_))).
  - apply (in_map (fun b => mul (normalise b) (normalise b))), bytes_In, Hx.
  - apply (in_map (fun b => mul (normalise b) (normalise b))), bytes_In, Hy.
Qed.

Lemma stick_pair_ranges (x y : double) :
  stick_pair x y ->
  in_unit x = true /\ in_unit y = true /\
  in_magnitude_range (sqrt (add (mul x x) (mul y y))) = true.
Proof.
  intros [[-> ->]|(bx & by_ & Hx & Hy & -> & ->)].
  - vm_compute. repeat split.
  - split; [apply normalise_in_unit, Hx|].
    split; [apply normalise_in_unit, Hy|].
    apply magnitude_of_bytes; assumption.
Qed.

Lemma stick_pairs_decode (report : list Z) (reportLength now : Z)
    (s : ControllerState) :
  stick_pairs s -> stick_pairs (decode report reportLength now s).
Proof.
  intros [HL HR]. unfold stick_pairs, decode; simpl. split.
  - destruct (8 <? reportLength); [|exact HL].
    right. exists (byte_at report 6), (byte_at report 8).
    repeat split; apply byte_at_range.
  - destruct (12 <? reportLength); [|exact HR].
    right. exists (byte_at report 10), (byte_at report 12).
    repeat split; apply byte_at_range.
Qed.

Lemma bounded_vector_derived (s : ControllerState) (last : Z) :
  stick_pairs s -> bounded_vector (fst (createFeatureVector s last)).
Proof.
  intros [HL HR].
  destruct (stick_pair_ranges _ _ HL) as (L1 & L2 & L3).
  destruct (stick_pair_ranges _ _ HR) as (R1 & R2 & R3).
  unfold bounded_vector, createFeatureVector, button_flags; simpl.
  split; [repeat (apply Forall_cons; [assumption|]); apply Forall_nil|].
  split; [repeat (apply Forall_cons; [apply flag_is_flag|]); apply Forall_nil|].
  repeat (apply Forall_cons; [assumption|]); apply Forall_nil.
Qed.

(** X2. After any sequence of events the four stick fields of the current
    state lie between 0.0 and 1.0, and in every vector of the queue and in
    every vector given to the inference engine the stick elements lie
    between 0.0 and 1.0, the eight button flags are 0.0 or 1.0, and the two
    magnitudes lie between 0.0 and the square root of 2. *)
Theorem feature_vectors_are_bounded host classify (events : list Event) :
  let d := run host classify events in
  Forall (fun x => in_unit x = true) (axes (currentState d)) /\
  Forall bounded_vector (featureQueue d) /\
  Forall bounded_vector (inferenceCalls d).
Proof.
  intros d.
  destruct (pipeline_invariant stick_pairs bounded_vector) with
    (host := host) (classify := classify) (events := events)
    as ([HL HR] & HQ & HI).
  - split; left; split; reflexivity.
  - exact stick_pairs_decode.
  - exact bounded_vector_derived.
  - fold d in HL, HR, HQ, HI.
    destruct (stick_pair_ranges _ _ HL) as (L1 & L2 & _).
    destruct (stick_pair_ranges _ _ HR) as (R1 & R2 & _).
    split; [repeat constructor; assumption|]. split; assumption.
Qed.

(** ** The button flags and the decoder *)

(** X3. For every report, the eight button flags of the vector derived from
    the decoded state are, in this order, the decoder's Y, X, B, A, L, R, ZL
    and ZR tests (so element 6, which [createFeatureVector] calls A, is the
    Y bit, and element 9, which it calls Y, is the A bit); the button word
    stays below 256, and byte 2 (minus, plus, stick clicks, home, capture)
    and the D-pad nibble never reach the vector. *)
Theorem button_flags_follow_the_decoder (report : list Z)
    (reportLength now last : Z) (s : ControllerState) :
  let s' := decode report reportLength now s in
  let b := Basic.decode report in
  0 <= buttons s' < 256 /\
  button_flags (fst (createFeatureVector s' last)) =
    map flag_of
      [ Basic.y_pressed b; Basic.x_pressed b; Basic.b_pressed b;
        Basic.a_pressed b; Basic.l_pressed b; Basic.r_pressed b;
        Basic.zl_pressed b; Basic.zr_pressed b ].
Proof.
  intros s' b.
  cbv beta iota zeta delta
    [ s' b button_flags createFeatureVector decode Basic.decode buttons
      Basic.y_pressed Basic.x_pressed Basic.b_pressed Basic.a_pressed
      Basic.l_pressed Basic.r_pressed Basic.zl_pressed Basic.zr_pressed
      button_word bit_if flag flag_of fst firstn skipn map ].
  destruct (truthy (Z.land (byte_at report 1) 1)),
           (truthy (Z.land (byte_at report 1) 2)),
           (truthy (Z.land (byte_at report 1) 4)),
           (truthy (Z.land (byte_at report 1) 8)),
           (truthy (Z.land (byte_at report 3) 32)),
           (truthy (Z.land (byte_at report 1) 64)),
           (truthy (Z.land (byte_at report 3) 64)),
           (truthy (Z.land (byte_at report 1) 128));
    (split; [split; [discriminate|reflexivity]|reflexivity]).
Qed.

(** ** The writes to the host *)

Lemma rumble_fields host lowFreq highFreq duration_ms (d : Driver) :
  let d' := rumble host lowFreq highFreq duration_ms d in
  hostWrites d' =
    hostWrites d ++
    (if connectedDevice d =? nullptr then []
     else [ {| hw_device := connectedDevice d; hw_reportID := 0x10;
               hw_data := rumbleData (uint16 lowFreq) (uint16 highFreq) |} ]) /\
  connectedDevice d' = connectedDevice d /\
  processingEnabled d' = processingEnabled d /\
  processingThread_joinable d' = processingThread_joinable d.
Proof.
  intros d'. subst d'. unfold rumble, IOHIDDeviceSetReport.
  destruct (connectedDevice d =? nullptr).
  - rewrite app_nil_r. repeat split.
  - destruct (_ =? kIOReturnSuccess); repeat split.
Qed.

Lemma setLEDPattern_fields host pattern (d : Driver) :
  let d' := setLEDPattern host pattern d in
  hostWrites d' =
    hostWrites d ++
    (if connectedDevice d =? nullptr then []
     else [ {| hw_device := connectedDevice d; hw_reportID := 0x01;
               hw_data := ledData (uint8 pattern) |} ]) /\
  connectedDevice d' = connectedDevice d /\
  processingEnabled d' = processingEnabled d /\
  processingThread_joinable d' = processingThread_joinable d.
Proof.
  intros d'. subst d'. unfold setLEDPattern, IOHIDDeviceSetReport.
  destruct (connectedDevice d =? nullptr).
  - rewrite app_nil_r. repeat split.
  - destruct (_ =? kIOReturnSuccess); repeat split.
Qed.

Lemma enableNeuralProcessing_fields (enable : bool) (d : Driver) :
  let d' := enableNeuralProcessing enable d in
  hostWrites d' = hostWrites d /\
  connectedDevice d' = connectedDevice d /\
  processingEnabled d' = enable /\
  processingThread_joinable d' = enable.
Proof.
  intros d'. subst d'. unfold enableNeuralProcessing.
  destruct enable, (processingThread_joinable d); repeat split.
Qed.

Lemma processInputReport_control (report : list Z) (reportLength now : Z)
    (d : Driver) :
  let d' := processInputReport report reportLength now d in
  hostWrites d' = hostWrites d /\
  connectedDevice d' = connectedDevice d /\
  processingEnabled d' = processingEnabled d /\
  processingThread_joinable d' = processingThread_joinable d.
Proof.
  intros d'. subst d'. unfold processInputReport.
  destruct (reportLength <? 3); [repeat split|].
  set (s := decode report reportLength now (currentState d)).
  assert (H : let e := extractFeatures s (set_currentState s d) in
              hostWrites e = hostWrites d /\
              connectedDevice e = connectedDevice d /\
              processingEnabled e = processingEnabled d /\
              processingThread_joinable e = processingThread_joinable d).
  { destruct (processingEnabled d) eqn:E.
    - rewrite extractFeatures_enabled by exact E. simpl. auto.
    - rewrite extractFeatures_disabled by exact E. simpl. auto. }
  destruct (pressed report); exact H.
Qed.

Lemma neuralProcessingStep_writes host classify (d : Driver) :
  exists lowFreq highFreq,
    hostWrites (neuralProcessingStep host classify d) = hostWrites d \/
    (connectedDevice d <> nullptr /\
     hostWrites (neuralProcessingStep host classify d) =
       hostWrites d ++
       [ {| hw_device := connectedDevice d; hw_reportID := 0x10;
            hw_data := rumbleData (uint16 lowFreq) (uint16 highFreq) |} ]).
Proof.
  exists 0x30, 0x30.
  destruct (featureQueue d) as [|front rest] eqn:Hq.
  - left. rewrite neuralProcessingStep_empty by exact Hq. reflexivity.
  - destruct front as [|x front].
    + left. unfold neuralProcessingStep. rewrite Hq. reflexivity.
    + rewrite (neuralProcessingStep_front host classify d (x :: front) rest Hq)
        by discriminate.
      destruct (String.eqb _ _); [|left; reflexivity].
      set (d2 := log_inference (x :: front) (set_featureQueue rest d)).
      destruct (rumble_fields host 0x30 0x30 50 d2) as (Hw & _).
      change (hostWrites (print PrintGestureDetected (rumble host 0x30 0x30 50 d2)))
        with (hostWrites (rumble host 0x30 0x30 50 d2)).
      rewrite Hw. change (connectedDevice d2) with (connectedDevice d).
      change (hostWrites d2) with (hostWrites d).
      destruct (Z.eqb_spec (connectedDevice d) nullptr).
      * left. apply app_nil_r.
      * right. split; [assumption|reflexivity].
Qed.

(** The attachment of a device, write by write. *)
Lemma deviceAdded_fields host device (d : Driver) :
  let w0 := {| hw_device := device; hw_reportID := 0x01; hw_data := initData |} in
  let wl := {| hw_device := device; hw_reportID := 0x01;
               hw_data := ledData (uint8 0x01) |} in
  let wr := {| hw_device := device; hw_reportID := 0x10;
               hw_data := rumbleData (uint16 0x00) (uint16 0x20) |} in
  let d' := deviceAdded host device d in
  connectedDevice d' = device /\
  (host (hostWrites d) w0 <> kIOReturnSuccess ->
     hostWrites d' = hostWrites d ++ [w0] /\
     processingEnabled d' = processingEnabled d /\
     processingThread_joinable d' = processingThread_joinable d /\
     console d' =
       console d ++ [PrintConnected; PrintInitFailed (host (hostWrites d) w0)]) /\
  (host (hostWrites d) w0 = kIOReturnSuccess ->
     hostWrites d' =
       hostWrites d ++ w0 :: (if device =? nullptr then [] else [wl; wr]) /\
     processingEnabled d' = true /\
     processingThread_joinable d' = true).
Proof.
  intros w0 wl wr d'. subst d'.
  unfold deviceAdded, setupController, IOHIDDeviceSetReport.
  cbn [hostWrites set_connectedDevice print].
  fold w0.
  destruct (Z.eqb_spec (host (hostWrites d) w0) kIOReturnSuccess) as [E|E].
  - set (d3 := print PrintControllerInitialized
                 (log_write w0 (set_connectedDevice device (print PrintConnected d)))).
    destruct (setLEDPattern_fields host 0x01 d3) as (Lw & Lc & _).
    destruct (rumble_fields host 0x00 0x20 100 (setLEDPattern host 0x01 d3))
      as (Rw & Rc & _).
    destruct (enableNeuralProcessing_fields true
                (rumble host 0x00 0x20 100 (setLEDPattern host 0x01 d3)))
      as (Ew & Ec & Ep & Ej).
    split; [rewrite Ec, Rc, Lc; reflexivity|].
    split; [intros N; contradiction|].
    intros _. split; [|split; assumption].
    rewrite Ew, Rw, Lc, Lw.
    change (connectedDevice d3) with device.
    change (hostWrites d3) with (hostWrites d ++ [w0]).
    destruct (device =? nullptr); [rewrite !app_nil_r; reflexivity|].
    rewrite <- !app_assoc. reflexivity.
  - split; [reflexivity|].
    split; [|intros N; contradiction].
    intros _. repeat split.
    simpl. rewrite <- app_assoc. reflexivity.
Qed.

Lemma uint8_range (z : Z) : 0 <= uint8 z < 256.
Proof. unfold uint8. apply Z.mod_pos_bound. lia. Qed.

Lemma rumbleData_well_framed device (lowFreq highFreq : Z) :
  well_framed {| hw_device := device; hw_reportID := 0x10;
                 hw_data := rumbleData lowFreq highFreq |}.
Proof.
  unfold well_framed, rumbleData; simpl. split.
  - repeat (apply Forall_cons;
              [first [apply uint8_range | lia]|]); apply Forall_nil.
  - right. repeat split.
Qed.

Lemma ledData_well_framed device (pattern : Z) :
  well_framed {| hw_device := device; hw_reportID := 0x01;
                 hw_data := ledData pattern |}.
Proof.
  unfold well_framed, ledData; simpl. split.
  - repeat (apply Forall_cons;
              [first [apply uint8_range | lia]|]); apply Forall_nil.
  - left. split; reflexivity.
Qed.

Lemma initData_well_framed device :
  well_framed {| hw_device := device; hw_reportID := 0x01;
                 hw_data := initData |}.
Proof.
  unfold well_framed, initData; simpl. split.
  - repeat (apply Forall_cons; [lia|]); apply Forall_nil.
  - left. split; reflexivity.
Qed.

(** Every event appends to the writes, and only well-framed ones. *)
Lemma step_writes host classify (d : Driver) (e : Event) :
  exists ws, hostWrites (step host classify d e) = hostWrites d ++ ws /\
             Forall well_framed ws.
Proof.
  destruct e; simpl.
  - destruct (deviceAdded_fields host device d) as (_ & Hfail & Hok).
    destruct (Z.eq_dec (host (hostWrites d)
                {| hw_device := device; hw_reportID := 0x01;
                   hw_data := initData |}) kIOReturnSuccess) as [E|E].
    + destruct (Hok E) as (Hw & _). eexists. split; [exact Hw|].
      apply Forall_cons; [apply initData_well_framed|].
      destruct (device =? nullptr); [apply Forall_nil|].
      apply Forall_cons; [apply ledData_well_framed|].
      apply Forall_cons; [apply rumbleData_well_framed|apply Forall_nil].
    + destruct (Hfail E) as (Hw & _). eexists. split; [exact Hw|].
      apply Forall_cons; [apply initData_well_framed|apply Forall_nil].
  - exists []. split; [symmetry; apply app_nil_r|apply Forall_nil].
  - exists []. split; [|apply Forall_nil]. rewrite app_nil_r.
    unfold inputReport. destruct (negb _); [reflexivity|].
    apply processInputReport_control.
  - unfold neuralProcessingLoop. destruct (_ && _).
    + destruct (neuralProcessingStep_writes host classify d)
        as (lo & hi & [H|[_ H]]).
      * exists []. split; [rewrite app_nil_r; exact H|apply Forall_nil].
      * eexists. split; [exact H|].
        apply Forall_cons; [apply rumbleData_well_framed|apply Forall_nil].
    + exists []. split; [symmetry; apply app_nil_r|apply Forall_nil].
  - destruct (rumble_fields host lowFreq highFreq duration_ms d) as (Hw & _).
    eexists. split; [exact Hw|].
    destruct (_ =? nullptr); [apply Forall_nil|].
    apply Forall_cons; [apply rumbleData_well_framed|apply Forall_nil].
  - destruct (setLEDPattern_fields host pattern d) as (Hw & _).
    eexists. split; [exact Hw|].
    destruct (_ =? nullptr); [apply Forall_nil|].
    apply Forall_cons; [apply ledData_well_framed|apply Forall_nil].
  - exists []. split; [|apply Forall_nil]. rewrite app_nil_r.
    apply enableNeuralProcessing_fields.
  - exists []. split; [|apply Forall_nil]. rewrite app_nil_r.
    apply (enableNeuralProcessing_fields false).
Qed.

(** X4. After any sequence of events, every write the driver has made to
    the host carries only bytes (0 to 255) and is either 2 bytes long under
    report ID 0x01 or 14 bytes long under report ID 0x10 with first byte
    0x10: the frame lengths never vary. *)
Theorem host_writes_are_well_framed host classify (events : list Event) :
  Forall well_framed (hostWrites (run host classify events)).
Proof.
  unfold run.
  assert (H : forall d, Forall well_framed (hostWrites d) ->
            Forall well_framed
              (hostWrites (fold_left (step host classify) events d))).
  { induction events as [|e events IH]; intros d Hd; simpl; [exact Hd|].
    apply IH. destruct (step_writes host classify d e) as (ws & -> & Hws).
    apply Forall_app. split; assumption. }
  apply H. apply Forall_nil.
Qed.

(** What an event other than an attachment does to a detached driver. *)
Lemma detached_step host classify (d : Driver) (e : Event) :
  connectedDevice d = nullptr -> not_DeviceAdded e ->
  hostWrites (step host classify d e) = hostWrites d /\
  connectedDevice (step host classify d e) = nullptr.
Proof.
  intros Hdev He. destruct e; simpl in *; try contradiction.
  - split; reflexivity.
  - unfold inputReport. destruct (negb _); [split; [reflexivity|exact Hdev]|].
    destruct (processInputReport_control report reportLength now d)
      as (Hw & Hc & _).
    rewrite Hw, Hc. split; [reflexivity|exact Hdev].
  - unfold neuralProcessingLoop.
    destruct (_ && _); [|split; [reflexivity|exact Hdev]].
    destruct (neuralProcessingStep_fields host classify d)
      as (_ & _ & _ & _ & Hc & _).
    rewrite Hc. split; [|exact Hdev].
    destruct (neuralProcessingStep_writes host classify d)
      as (lo & hi & [H|[N _]]); [exact H|contradiction].
  - rewrite rumble_disconnected by exact Hdev. split; [reflexivity|exact Hdev].
  - rewrite setLEDPattern_disconnected by exact Hdev.
    split; [reflexivity|exact Hdev].
  - destruct (enableNeuralProcessing_fields enable d) as (Hw & Hc & _).
    rewrite Hw, Hc. split; [reflexivity|exact Hdev].
  - destruct (enableNeuralProcessing_fields false d) as (Hw & Hc & _).
    unfold stop. rewrite Hw, Hc. split; [reflexivity|exact Hdev].
Qed.

(** X5. While no device is attached, nothing is written to the host: from
    a driver without a device, and in particular after [deviceRemoved],
    any sequence of events that attaches no device (reports, turns of the
    processing loop that detect gestures, rumble and LED commands,
    enabling, stopping) leaves the writes as they are and the driver
    without a device. *)
Theorem detached_driver_writes_nothing host classify (d : Driver)
    (events : list Event) :
  Forall not_DeviceAdded events ->
  (connectedDevice d = nullptr ->
     hostWrites (fold_left (step host classify) events d) = hostWrites d /\
     connectedDevice (fold_left (step host classify) events d) = nullptr) /\
  hostWrites (fold_left (step host classify) events (deviceRemoved d))
    = hostWrites d.
Proof.
  intros Hev.
  assert (H : forall d0, connectedDevice d0 = nullptr ->
     hostWrites (fold_left (step host classify) events d0) = hostWrites d0 /\
     connectedDevice (fold_left (step host classify) events d0) = nullptr).
  { induction Hev as [|e events He _ IH]; intros d0 Hd0; simpl.
    - split; [reflexivity|exact Hd0].
    - destruct (detached_step host classify d0 e Hd0 He) as (Hw & Hc).
      destruct (IH _ Hc) as (Hw' & Hc'). rewrite Hw', Hw.
      split; [reflexivity|exact Hc']. }
  split; [apply H|].
  destruct (H (deviceRemoved d) eq_refl) as (Hw & _). rewrite Hw. reflexivity.
Qed.

Lemma detached_driver_writes_nothing_witness :
  let host := fun (_ : list HostWrite) (_ : HostWrite) => kIOReturnSuccess in
  let classify := fun (_ : list (list double)) (_ : list double) =>
                    "GESTURE_DETECTED" in
  let report := [0x30; 0x08; 0; 0; 0; 0; 0x80; 0; 0x80; 0; 0x80; 0; 0x80; 0] in
  let d := run host classify [DeviceAdded 7; InputReport 0 report 14 1000000] in
  let later := [ NeuralTurn; Rumble 0x80 0xFF 500; SetLEDPattern 0x02;
                 InputReport 0 report 14 1016000; NeuralTurn ] in
  length (hostWrites d) = 3%nat /\
  hostWrites (fold_left (step host classify) later (deviceRemoved d))
    = hostWrites d.
Proof.
  intros host classify report d later.
  split; [vm_compute; reflexivity|].
  destruct (detached_driver_writes_nothing host classify d later) as [_ H].
  - repeat (apply Forall_cons; [exact I|]). apply Forall_nil.
  - exact H.
Defined.

(** X6. The attachment of a device.  The device is kept as the connected
    device whatever the handshake gives.  When the host refuses the
    handshake [0x80, 0x01], nothing else is written, the failure is
    printed, and processing is neither enabled nor disabled.  When the host
    accepts it, the driver then writes the LED frame [0x01, 0x01] and the
    rumble frame for (low 0x00, high 0x20), in this order and whatever the
    host answers to them, and processing ends up enabled with its thread. *)
Theorem handshake_on_attachment host (device : Z) (d : Driver) :
  device <> nullptr ->
  let w0 := {| hw_device := device; hw_reportID := 0x01;
               hw_data := [0x80; 0x01] |} in
  let wl := {| hw_device := device; hw_reportID := 0x01;
               hw_data := [0x01; 0x01] |} in
  let wr := {| hw_device := device; hw_reportID := 0x10;
               hw_data := [0x10; 0x80; 0; 0; 0; 0x20; 0; 0; 0; 0; 0; 0; 0; 0] |} in
  let d' := deviceAdded host device d in
  connectedDevice d' = device /\
  same_pipeline d d' /\
  (host (hostWrites d) w0 <> kIOReturnSuccess ->
     hostWrites d' = hostWrites d ++ [w0] /\
     processingEnabled d' = processingEnabled d /\
     processingThread_joinable d' = processingThread_joinable d /\
     console d' =
       console d ++ [PrintConnected; PrintInitFailed (host (hostWrites d) w0)]) /\
  (host (hostWrites d) w0 = kIOReturnSuccess ->
     hostWrites d' = hostWrites d ++ [w0; wl; wr] /\
     processingEnabled d' = true /\
     processingThread_joinable d' = true).
Proof.
  intros Hdev w0 wl wr d'.
  destruct (deviceAdded_fields host device d) as (Hc & Hfail & Hok).
  split; [exact Hc|]. split; [apply same_pipeline_deviceAdded|].
  split; [exact Hfail|].
  intros E. destruct (Hok E) as (Hw & Hp & Hj).
  split; [|split; assumption].
  fold d' in Hw. rewrite Hw.
  destruct (Z.eqb_spec device nullptr); [contradiction|reflexivity].
Qed.

Lemma handshake_on_attachment_witness :
  let refuse := fun (_ : list HostWrite) (_ : HostWrite) => 1 in
  let accept := fun (_ : list HostWrite) (_ : HostWrite) => kIOReturnSuccess in
  hostWrites (deviceAdded refuse 7 SwitchProController) =
    [ {| hw_device := 7; hw_reportID := 0x01; hw_data := [0x80; 0x01] |} ] /\
  connectedDevice (deviceAdded refuse 7 SwitchProController) = 7 /\
  processingEnabled (deviceAdded refuse 7 SwitchProController) = false /\
  length (hostWrites (deviceAdded accept 7 SwitchProController)) = 3%nat /\
  processingEnabled (deviceAdded accept 7 SwitchProController) = true.
Proof.
  intros refuse accept.
  destruct (handshake_on_attachment refuse 7 SwitchProController
              ltac:(discriminate)) as (Hc & _ & Hfail & _).
  destruct (Hfail ltac:(discriminate)) as (Hw & Hp & _).
  destruct (handshake_on_attachment accept 7 SwitchProController
              ltac:(discriminate)) as (_ & _ & _ & Hok).
  destruct (Hok eq_refl) as (Hw' & Hp' & _).
  split; [exact Hw|]. split; [exact Hc|]. split; [exact Hp|].
  split; [rewrite Hw'; reflexivity|exact Hp'].
Defined.

(** ** Order of consumption *)

Lemma tl_skipn {T : Type} (k : nat) (l : list T) :
  tl (skipn k l) = skipn (S k) l.
Proof.
  revert l. induction k as [|k IH]; intros [|x l]; simpl; try reflexivity.
  apply IH.
Qed.

Lemma firstn_S_skipn {T : Type} (k : nat) (l : list T) :
  firstn (S k) l = firstn k l ++ firstn 1 (skipn k l).
Proof.
  revert l. induction k as [|k IH]; intros [|x l]; simpl; try reflexivity.
  f_equal. apply (IH l).
Qed.

Lemma Forall_skipn {T : Type} (P : T -> Prop) (k : nat) (l : list T) :
  Forall P l -> Forall P (skipn k l).
Proof.
  revert l. induction k as [|k IH]; intros l H; simpl; [exact H|].
  destruct l; [exact H|]. apply IH. inversion H; assumption.
Qed.

Lemma iterated_steps host classify (d : Driver) (k : nat) :
  Forall (fun v => v <> []) (featureQueue d) ->
  let d' := Nat.iter k (neuralProcessingStep host classify) d in
  featureQueue d' = skipn k (featureQueue d) /\
  inferenceCalls d' = inferenceCalls d ++ firstn k (featureQueue d).
Proof.
  intros Hne. induction k as [|k IH].
  - simpl. rewrite app_nil_r. split; reflexivity.
  - change (Nat.iter (S k) (neuralProcessingStep host classify) d)
      with (neuralProcessingStep host classify
              (Nat.iter k (neuralProcessingStep host classify) d)).
    cbv zeta in IH |- *. destruct IH as (Hq & Hi).
    destruct (neuralProcessingStep_fields host classify
                (Nat.iter k (neuralProcessingStep host classify) d))
      as (Hq' & Hi' & _).
    rewrite Hq', Hi', Hq, Hi. split; [apply tl_skipn|].
    rewrite <- app_assoc. f_equal.
    rewrite (firstn_S_skipn k (featureQueue d)). f_equal.
    pose proof (Forall_skipn _ k _ Hne) as Hk.
    destruct (skipn k (featureQueue d)) as [|[|x v] rest]; try reflexivity.
    inversion Hk as [|? ? Hv _]. contradiction.
Qed.

(** X7. The processing loop consumes in the order of production: in any
    state the driver can reach, [k] steps of the loop body remove the first
    [k] vectors of the queue (all of them when there are fewer) and give
    exactly these, oldest first, to the inference engine. *)
Theorem loop_consumes_in_order host classify (events : list Event) (k : nat) :
  let d := run host classify events in
  let d' := Nat.iter k (neuralProcessingStep host classify) d in
  featureQueue d' = skipn k (featureQueue d) /\
  inferenceCalls d' = inferenceCalls d ++ firstn k (featureQueue d).
Proof.
  intros d. apply iterated_steps.
  destruct (invariant_run host classify events) as (_ & _ & _ & Hder & _).
  eapply Forall_impl; [|exact Hder].
  intros v (H17 & _) ->. discriminate H17.
Qed.

(** ** Many enqueues *)

Lemma enqueue_last_100 (v : list double) (q : list (list double)) :
  (length q <= 100)%nat ->
  enqueue v q = skipn (length (q ++ [v]) - 100) (q ++ [v]).
Proof.
  intros H. destruct (Nat.eq_dec (length q) 100) as [E|E].
  - destruct q as [|oldest rest]; [discriminate E|].
    rewrite (enqueue_full v oldest rest E), length_app.
    replace (length (oldest :: rest) + length [v] - 100)%nat with 1%nat
      by (rewrite E; reflexivity).
    reflexivity.
  - rewrite enqueue_below by lia. rewrite length_app. simpl.
    replace (length q + 1 - 100)%nat with 0%nat by lia. reflexivity.
Qed.

Lemma skipn_skipn_app {T : Type} (n : nat) (l r : list T) :
  skipn (length (skipn (length l - n) l ++ r) - n)
        (skipn (length l - n) l ++ r)
  = skipn (length (l ++ r) - n) (l ++ r).
Proof.
  rewrite !length_app, length_skipn.
  rewrite (skipn_app (length l + length r - n)).
  destruct (Nat.le_gt_cases (length l) n) as [Hle|Hgt].
  - replace (length l - n)%nat with 0%nat by lia. simpl.
    rewrite skipn_app. f_equal; f_equal; lia.
  - rewrite skipn_app, length_skipn.
    replace (length l - (length l - n) + length r - n)%nat
      with (length r) by lia.
    rewrite skipn_skipn.
    replace (length r + (length l - n))%nat
      with (length l + length r - n)%nat by lia.
    f_equal. f_equal. lia.
Qed.

(** X8. Drop-oldest, composed: enqueuing any number of vectors, one after
    the other, into a queue of at most 100 leaves exactly the last 100 of
    the old queue followed by the new vectors, in their order (all of them
    when there are at most 100). *)
Theorem enqueue_keeps_the_last_100 (vs q : list (list double)) :
  (length q <= 100)%nat ->
  fold_left (fun q v => enqueue v q) vs q =
    skipn (length (q ++ vs) - 100) (q ++ vs).
Proof.
  revert q. induction vs as [|v vs IH]; intros q Hq; simpl.
  - rewrite app_nil_r. replace (length q - 100)%nat with 0%nat by lia.
    reflexivity.
  - rewrite IH by (apply enqueue_length, Hq).
    rewrite (enqueue_last_100 v q Hq).
    rewrite (skipn_skipn_app 100 (q ++ [v]) vs).
    rewrite <- app_assoc. reflexivity.
Qed.

Lemma enqueue_keeps_the_last_100_witness :
  let vec := fun n : nat => [of_Z (Z.of_nat n)] in
  fold_left (fun q v => enqueue v q) (map vec (seq 3 150)) (map vec (seq 0 3))
    = map vec (seq 53 100).
Proof.
  intros vec.
  rewrite (enqueue_keeps_the_last_100 (map vec (seq 3 150)) (map vec (seq 0 3)))
    by (simpl; lia).
  vm_compute. reflexivity.
Defined.

(** ** The processing flag and its thread *)

Lemma step_control host classify (d : Driver) (e : Event) :
  processingThread_joinable d = processingEnabled d ->
  processingThread_joinable (step host classify d e) =
    processingEnabled (step host classify d e).
Proof.
  intros H. destruct e; simpl.
  - destruct (deviceAdded_fields host device d) as (_ & Hfail & Hok).
    destruct (Z.eq_dec (host (hostWrites d)
                {| hw_device := device; hw_reportID := 0x01;
                   hw_data := initData |}) kIOReturnSuccess) as [E|E].
    + destruct (Hok E) as (_ & -> & ->). reflexivity.
    + destruct (Hfail E) as (_ & -> & -> & _). exact H.
  - exact H.
  - unfold inputReport. destruct (negb _); [exact H|].
    destruct (processInputReport_control report reportLength now d)
      as (_ & _ & -> & ->). exact H.
  - unfold neuralProcessingLoop. destruct (_ && _); [|exact H].
    destruct (neuralProcessingStep_fields host classify d)
      as (_ & _ & _ & _ & _ & -> & ->). exact H.
  - destruct (rumble_fields host lowFreq highFreq duration_ms d)
      as (_ & _ & -> & ->). exact H.
  - destruct (setLEDPattern_fields host pattern d) as (_ & _ & -> & ->).
    exact H.
  - destruct (enableNeuralProcessing_fields enable d) as (_ & _ & -> & ->).
    reflexivity.
  - unfold stop.
    destruct (enableNeuralProcessing_fields false d) as (_ & _ & -> & ->).
    reflexivity.
Qed.

(** X9. After any sequence of events the processing thread exists exactly
    when processing is enabled.  [enableNeuralProcessing] leaves the flag
    and the thread at its argument whatever they were, so calling it twice
    with the same argument is calling it once; and once processing is
    disabled (or the driver stopped) a turn of the loop consumes nothing,
    however full the queue, which [enableNeuralProcessing] never clears. *)
Theorem processing_thread_follows_the_flag host classify
    (events : list Event) (enable : bool) (d : Driver) :
  processingThread_joinable (run host classify events) =
    processingEnabled (run host classify events) /\
  processingEnabled (enableNeuralProcessing enable d) = enable /\
  processingThread_joinable (enableNeuralProcessing enable d) = enable /\
  enableNeuralProcessing enable (enableNeuralProcessing enable d) =
    enableNeuralProcessing enable d /\
  featureQueue (enableNeuralProcessing enable d) = featureQueue d /\
  neuralProcessingLoop host classify (enableNeuralProcessing false d) =
    enableNeuralProcessing false d /\
  neuralProcessingLoop host classify (stop d) = stop d.
Proof.
  split; [|split; [|split; [|split; [|split; [|split]]]]].
  - unfold run.
    assert (H : forall d0,
              processingThread_joinable d0 = processingEnabled d0 ->
              processingThread_joinable
                (fold_left (step host classify) events d0) =
              processingEnabled (fold_left (step host classify) events d0)).
    { induction events as [|e events IH]; intros d0 H0; simpl; [exact H0|].
      apply IH, step_control, H0. }
    apply H. reflexivity.
  - apply enableNeuralProcessing_fields.
  - apply enableNeuralProcessing_fields.
  - unfold enableNeuralProcessing.
    destruct enable, (processingThread_joinable d); reflexivity.
  - apply (same_pipeline_enableNeuralProcessing enable d).
  - unfold neuralProcessingLoop.
    destruct (enableNeuralProcessing_fields false d) as (_ & _ & -> & ->).
    reflexivity.
  - unfold neuralProcessingLoop, stop.
    destruct (enableNeuralProcessing_fields false d) as (_ & _ & -> & ->).
    reflexivity.
Qed.

(** ** What the two drivers print *)

Lemma shown_nil (b : bool) (x : Button) : shown b x = [] <-> b = false.
Proof. destruct b; simpl; split; intros H; trivial; discriminate H. Qed.

Lemma filter_shown (f : Button -> bool) (b : bool) (x : Button) :
  filter f (shown b x) = if f x then shown b x else [].
Proof. destruct b; simpl; destruct (f x); reflexivity. Qed.

Lemma basic_pressed_nil (d : Basic.Decoded) :
  Basic.pressed d = [] <->
  Basic.a_pressed d || Basic.b_pressed d || Basic.x_pressed d ||
  Basic.y_pressed d || Basic.l_pressed d || Basic.r_pressed d ||
  Basic.zl_pressed d || Basic.zr_pressed d || Basic.minus_pressed d ||
  Basic.plus_pressed d || Basic.home_pressed d || Basic.capture_pressed d ||
  Basic.stick_left_pressed d || Basic.stick_right_pressed d = false.
Proof.
  unfold Basic.pressed.
  destruct (Basic.a_pressed d); [simpl; split; intros H; discriminate H|].
  destruct (Basic.b_pressed d); [simpl; split; intros H; discriminate H|].
  destruct (Basic.x_pressed d); [simpl; split; intros H; discriminate H|].
  destruct (Basic.y_pressed d); [simpl; split; intros H; discriminate H|].
  destruct (Basic.l_pressed d); [simpl; split; intros H; discriminate H|].
  destruct (Basic.r_pressed d); [simpl; split; intros H; discriminate H|].
  destruct (Basic.zl_pressed d); [simpl; split; intros H; discriminate H|].
  destruct (Basic.zr_pressed d); [simpl; split; intros H; discriminate H|].
  destruct (Basic.minus_pressed d); [simpl; split; intros H; discriminate H|].
  destruct (Basic.plus_pressed d); [simpl; split; intros H; discriminate H|].
  destruct (Basic.home_pressed d); [simpl; split; intros H; discriminate H|].
  destruct (Basic.capture_pressed d); [simpl; split; intros H; discriminate H|].
  destruct (Basic.stick_left_pressed d);
    [simpl; split; intros H; discriminate H|].
  destruct (Basic.stick_right_pressed d);
    [simpl; split; intros H; discriminate H|].
  simpl. split; reflexivity.
Qed.

Lemma print_line_nil (d : Basic.Decoded) :
  Basic.print_line d = [] <->
  Basic.pressed d = [] /\ Basic.dpad_state d = 8.
Proof.
  rewrite basic_pressed_nil. unfold Basic.print_line.
  set (any := Basic.a_pressed d || Basic.b_pressed d || Basic.x_pressed d ||
              Basic.y_pressed d || Basic.l_pressed d || Basic.r_pressed d ||
              Basic.zl_pressed d || Basic.zr_pressed d ||
              Basic.minus_pressed d || Basic.plus_pressed d ||
              Basic.home_pressed d || Basic.capture_pressed d ||
              Basic.stick_left_pressed d || Basic.stick_right_pressed d).
  destruct any; simpl.
  - split; [discriminate|intros [H _]; discriminate H].
  - destruct (Z.eqb_spec (Basic.dpad_state d) 8) as [E|E]; simpl.
    + split; auto.
    + split; [discriminate|intros [_ H]; contradiction].
Qed.

Lemma print_line_shape (d : Basic.Decoded) :
  Basic.print_line d = [] \/
  exists line, Basic.print_line d = [line] /\
    Basic.line_buttons line = Basic.pressed d /\
    Basic.line_dpad line = Basic.dpad d.
Proof.
  unfold Basic.print_line. destruct (_ || negb _); [|left; reflexivity].
  right. eexists. split; [reflexivity|]. split; reflexivity.
Qed.

(** X10. What switch_pro_driver.cpp prints for a report: at most one line;
    no line exactly when the report is shorter than 3 bytes, or no button
    is pressed and the D-pad nibble is 8.  So stick movement alone never
    prints, while a nibble from 9 to 15 with no button pressed prints a
    line with no button and the neutral D-pad.  A printed line names the
    pressed buttons and the decoded D-pad. *)
Theorem basic_driver_prints (report : list Z) (reportLength : Z) :
  let d := Basic.decode report in
  let out := Basic.processInputReport report reportLength in
  (out = [] <->
     reportLength < 3 \/ (Basic.pressed d = [] /\ Basic.dpad_state d = 8)) /\
  (out = [] \/
   exists line, out = [line] /\
     Basic.line_buttons line = Basic.pressed d /\
     Basic.line_dpad line = Basic.dpad d) /\
  (3 <= reportLength -> Basic.pressed d = [] -> 8 < Basic.dpad_state d ->
     exists line, out = [line] /\
       Basic.line_buttons line = [] /\ Basic.line_dpad line = Basic.Neutral).
Proof.
  intros d out.
  assert (Hout : out = if reportLength <? 3 then [] else Basic.print_line d)
    by reflexivity.
  pose proof (print_line_nil d) as Hline.
  pose proof (print_line_shape d) as Hshape.
  assert (Hdpad : Basic.dpad d =
            if Basic.dpad_state d <? 8
            then nth (Z.to_nat (Basic.dpad_state d)) Basic.dpad_states Basic.Neutral
            else Basic.Neutral) by reflexivity.
  clearbody d out.
  split; [|split].
  - rewrite Hout. destruct (Z.ltb_spec reportLength 3).
    + split; auto.
    + rewrite Hline. split; [auto|]. intros [N|N]; [lia|exact N].
  - rewrite Hout. destruct (reportLength <? 3); [left; reflexivity|exact Hshape].
  - intros Hlen Hnone Hnibble. rewrite Hout.
    destruct (Z.ltb_spec reportLength 3); [lia|].
    destruct Hshape as [E|(line & E & Hb & Hd)].
    + apply Hline in E. lia.
    + exists line. split; [exact E|]. split; [congruence|].
      rewrite Hd, Hdpad.
      destruct (Z.ltb_spec (Basic.dpad_state d) 8); [lia|reflexivity].
Qed.

Lemma basic_driver_prints_witness :
  let moved := [0x30; 0; 0; 0x08; 0; 0; 0xFF; 0; 0x00; 0; 0x80; 0; 0x80; 0] in
  let odd := [0x30; 0; 0; 0x0F; 0; 0; 0x80; 0; 0x80; 0; 0x80; 0; 0x80; 0] in
  Basic.processInputReport moved 14 = [] /\
  exists line, Basic.processInputReport odd 14 = [line] /\
               Basic.line_buttons line = [] /\
               Basic.line_dpad line = Basic.Neutral.
Proof.
  intros moved odd. split.
  - apply (basic_driver_prints moved 14). right. split; reflexivity.
  - apply (basic_driver_prints odd 14); [lia|reflexivity|reflexivity].
Defined.

(** X11. The neural driver prints the buttons of the basic driver without
    the two stick clicks, and no D-pad: for every report its list of names
    is that of switch_pro_driver.cpp with L3 and R3 removed, and a report
    it accepts adds one line with these names to the console when the list
    is not empty, and nothing otherwise. *)
Theorem neural_driver_prints (report : list Z) (reportLength now : Z)
    (d : Driver) :
  pressed report = filter printed_by_neural (Basic.pressed (Basic.decode report)) /\
  (3 <= reportLength ->
     console (processInputReport report reportLength now d) =
       console d ++
       match pressed report with
       | [] => []
       | names => [PrintButtons names]
       end).
Proof.
  split.
  - unfold Basic.pressed, pressed, Basic.decode; simpl.
    rewrite !filter_app, !filter_shown. simpl.
    rewrite !app_nil_r. reflexivity.
  - intros Hlen. unfold processInputReport.
    destruct (Z.ltb_spec reportLength 3); [lia|].
    set (s := decode report reportLength now (currentState d)).
    assert (Hc : console (extractFeatures s (set_currentState s d)) = console d).
    { destruct (processingEnabled d) eqn:E.
      - rewrite extractFeatures_enabled by exact E. reflexivity.
      - rewrite extractFeatures_disabled by exact E. reflexivity. }
    destruct (pressed report); simpl; rewrite Hc;
      [rewrite app_nil_r|]; reflexivity.
Qed.

Lemma neural_driver_prints_witness :
  let report := [0x30; 0x08; 0x05; 0; 0; 0; 0x80; 0; 0x80; 0; 0x80; 0; 0x80; 0] in
  Basic.pressed (Basic.decode report) = [A; Minus; L3] /\
  console (processInputReport report 14 1000000 SwitchProController) =
    [PrintButtons [A; Minus]].
Proof.
  intros report. split; [reflexivity|].
  destruct (neural_driver_prints report 14 1000000 SwitchProController)
    as [_ H].
  rewrite (H ltac:(lia)). reflexivity.
Defined.

(** ** When the driver rumbles by itself *)

Lemma label_is_gesture (build : Engine.Build)
    (processor : option (list double -> Engine.Prediction))
    (features : list double) :
  Engine.processControllerFeatures build processor features = "GESTURE_DETECTED"
  <->
  build = Engine.ObjectiveCpp /\ features <> [] /\
  exists model confidence,
    processor = Some model /\
    model features = Engine.Output confidence /\
    ltb half confidence = true.
Proof.
  split.
  - destruct build; [discriminate|]. simpl.
    destruct processor as [model|]; [|discriminate].
    unfold Engine.processControllerData.
    destruct features as [|x features]; [discriminate|].
    destruct (model (x :: features)) as [| | |c] eqn:E; try discriminate.
    destruct (ltb half c) eqn:Ec; [|discriminate].
    intros _. split; [reflexivity|]. split; [discriminate|].
    exists model, c. repeat split; assumption.
  - intros (-> & Hne & model & c & -> & Hm & Hc). simpl.
    unfold Engine.processControllerData.
    destruct features; [contradiction|]. rewrite Hm, Hc. reflexivity.
Qed.

(** X12. With the engine of the source as the classifier, a step of the
    processing loop on a queue whose front vector is [front] rumbles
    (0x30, 0x30, 50) exactly when the file is built as Objective-C++, a
    processor is loaded, and the model's confidence for [front] is above
    0.5 (a NaN confidence is not); in every other case the step only moves
    [front] from the queue to the engine.  In the plain C++ build of the
    header's command the label is always OBJC_UNAVAILABLE, so no turn of the
    loop ever writes to the host or prints. *)
Theorem rumble_needs_a_confident_model host (build : Engine.Build)
    (processor : option (list double -> Engine.Prediction)) (d : Driver) :
  let classify := Engine.classify build processor in
  (forall front rest,
     featureQueue d = front :: rest -> front <> [] ->
     let d2 := log_inference front (set_featureQueue rest d) in
     let confident :=
       build = Engine.ObjectiveCpp /\
       exists model confidence,
         processor = Some model /\
         model front = Engine.Output confidence /\
         ltb half confidence = true in
     (confident ->
        neuralProcessingStep host classify d =
          print PrintGestureDetected (rumble host 0x30 0x30 50 d2)) /\
     (~ confident -> neuralProcessingStep host classify d = d2)) /\
  hostWrites
    (neuralProcessingLoop host (Engine.classify Engine.PlainCpp processor) d)
    = hostWrites d /\
  console
    (neuralProcessingLoop host (Engine.classify Engine.PlainCpp processor) d)
    = console d.
Proof.
  intros classify. split.
  - intros front rest Hq Hne d2 confident.
    pose proof (neuralProcessingStep_front host classify d front rest Hq Hne)
      as Hstep.
    cbv zeta in Hstep. fold d2 in Hstep.
    pose proof (label_is_gesture build processor front) as Hlabel.
    change (classify (inferenceCalls d) front)
      with (Engine.processControllerFeatures build processor front) in Hstep.
    destruct (String.eqb_spec
                (Engine.processControllerFeatures build processor front)
                "GESTURE_DETECTED") as [E|E].
    + split; [intros _; exact Hstep|].
      intros N. exfalso. apply N.
      destruct (proj1 Hlabel E) as (Hb & _ & Hm). split; assumption.
    + split; [|intros _; exact Hstep].
      intros [Hb Hm]. exfalso. apply E, Hlabel.
      split; [exact Hb|]. split; [exact Hne|exact Hm].
  - assert (H : hostWrites (neuralProcessingStep host
                   (Engine.classify Engine.PlainCpp processor) d) = hostWrites d /\
                console (neuralProcessingStep host
                   (Engine.classify Engine.PlainCpp processor) d) = console d).
    { destruct (featureQueue d) as [|front rest] eqn:Hq.
      - rewrite neuralProcessingStep_empty by exact Hq. split; reflexivity.
      - destruct front as [|x front].
        + unfold neuralProcessingStep. rewrite Hq. split; reflexivity.
        + rewrite (neuralProcessingStep_front host _ d (x :: front) rest Hq)
            by discriminate.
          split; reflexivity. }
    unfold neuralProcessingLoop.
    destruct (_ && _); [exact H|split; reflexivity].
Qed.

Lemma rumble_needs_a_confident_model_witness :
  let host := fun (_ : list HostWrite) (_ : HostWrite) => kIOReturnSuccess in
  let sure := fun _ : list double => Engine.Output one in
  let unsure := fun _ : list double => Engine.Output half in
  let v := fst (createFeatureVector initialState 0) in
  let d := set_featureQueue [v] (set_connectedDevice 7 SwitchProController) in
  length (hostWrites (neuralProcessingStep host
            (Engine.classify Engine.ObjectiveCpp (Some sure)) d)) = 1%nat /\
  hostWrites (neuralProcessingStep host
            (Engine.classify Engine.ObjectiveCpp (Some unsure)) d) = [].
Proof.
  intros host sure unsure v d. split.
  - destruct (rumble_needs_a_confident_model host Engine.ObjectiveCpp
                (Some sure) d) as [H _].
    destruct (H v [] eq_refl ltac:(discriminate)) as [Hyes _].
    rewrite Hyes; [reflexivity|].
    split; [reflexivity|]. exists sure, one. repeat split.
  - destruct (rumble_needs_a_confident_model host Engine.ObjectiveCpp
                (Some unsure) d) as [H _].
    destruct (H v [] eq_refl ltac:(discriminate)) as [_ Hno].
    rewrite Hno; [reflexivity|].
    intros [_ (model & c & Hm & Hc & Hlt)].
    injection Hm as <-. injection Hc as <-. discriminate Hlt.
Defined.

(** ** The lifecycle of the controller *)

Import Facade.

(** [initialize] branch by branch, on a controller that made no call yet. *)
Lemma initialize_branches (build : Engine.Build) (a : Answers) (c : Controller) :
  calls c = [] ->
  let r := initialize build a c in
  (manager a = nullptr ->
     fst r = false /\ hidManager (snd r) = nullptr /\
     calls (snd r) = [IOHIDManagerCreate]) /\
  (manager a <> nullptr -> matchingDict a = nullptr ->
     fst r = false /\ hidManager (snd r) = manager a /\
     calls (snd r) =
       [IOHIDManagerCreate; CFDictionaryCreateMutable; CFRelease (manager a)]) /\
  (manager a <> nullptr -> matchingDict a <> nullptr ->
     let matching :=
       if negb (vendorIDRef a =? nullptr) && negb (productIDRef a =? nullptr)
       then [ CFDictionarySetValue (matchingDict a) (vendorIDRef a);
              CFDictionarySetValue (matchingDict a) (productIDRef a);
              IOHIDManagerSetDeviceMatching (manager a) (matchingDict a);
              CFRelease (vendorIDRef a); CFRelease (productIDRef a) ]
       else [] in
     let opened :=
       [ IOHIDManagerCreate; CFDictionaryCreateMutable;
         CFNumberCreate VENDOR_ID; CFNumberCreate PRODUCT_ID ] ++
       matching ++
       [ CFRelease (matchingDict a);
         IOHIDManagerRegisterDeviceMatchingCallback (manager a);
         IOHIDManagerRegisterDeviceRemovalCallback (manager a);
         IOHIDManagerRegisterInputReportCallback (manager a);
         IOHIDManagerScheduleWithRunLoop (manager a);
         IOHIDManagerOpen (manager a) ] in
     (openResult a <> kIOReturnSuccess ->
        fst r = false /\ hidManager (snd r) = nullptr /\
        calls (snd r) = opened ++ [CFRelease (manager a)]) /\
     (openResult a = kIOReturnSuccess ->
        fst r = true /\ hidManager (snd r) = manager a /\
        calls (snd r) = opened)) /\
  driver (snd r) = driver c /\
  isRunning (snd r) = isRunning c /\
  inputThread_joinable (snd r) = inputThread_joinable c.
Proof.
  intros Hc r. subst r. unfold initialize.
  destruct (Engine.initialize build (loaded a)) as [processor ready].
  cbn [hidManager set_hidManager call say set_neuralEngine].
  destruct (Z.eqb_spec (manager a) nullptr) as [Em|Em];
    [|destruct (Z.eqb_spec (matchingDict a) nullptr) as [Ed|Ed];
      [|destruct (Z.eqb_spec (openResult a) kIOReturnSuccess) as [Eo|Eo];
        destruct (negb (vendorIDRef a =? nullptr) &&
                  negb (productIDRef a =? nullptr))]];
    destruct (negb ready); cbv zeta;
    repeat match goal with
           | |- _ /\ _ => split
           | |- _ -> _ => intro
           end;
    try contradiction; try assumption;
    try (simpl; rewrite Hc; reflexivity); reflexivity.
Qed.


Lemma releases_app (object : Z) (l1 l2 : list HostCall) :
  releases object (l1 ++ l2) = (releases object l1 + releases object l2)%nat.
Proof. unfold releases. rewrite filter_app, length_app. reflexivity. Qed.

Lemma closes_app (object : Z) (l1 l2 : list HostCall) :
  closes object (l1 ++ l2) = (closes object l1 + closes object l2)%nat.
Proof. unfold closes. rewrite filter_app, length_app. reflexivity. Qed.

Lemma eqb_other (x y : Z) : y <> x -> (x =? y) = false.
Proof. intros H. apply Z.eqb_neq. congruence. Qed.

(** The accounting of [initialize], shared by the properties below. *)
Lemma initialize_accounting (build : Engine.Build) (a : Answers) :
  manager a <> matchingDict a ->
  manager a <> vendorIDRef a ->
  manager a <> productIDRef a ->
  let r := initialize build a SwitchProController in
  (fst r = true <->
     manager a <> nullptr /\ matchingDict a <> nullptr /\
     openResult a = kIOReturnSuccess) /\
  (fst r = true ->
     hidManager (snd r) = manager a /\
     releases (manager a) (calls (snd r)) = 0%nat) /\
  (fst r = false -> manager a <> nullptr ->
     releases (manager a) (calls (snd r)) = 1%nat /\
     hidManager (snd r) =
       if matchingDict a =? nullptr then manager a else nullptr) /\
  (manager a = nullptr ->
     hidManager (snd r) = nullptr /\ calls (snd r) = [IOHIDManagerCreate]) /\
  (manager a <> nullptr -> matchingDict a <> nullptr ->
   vendorIDRef a = nullptr \/ productIDRef a = nullptr ->
     ~ In (IOHIDManagerSetDeviceMatching (manager a) (matchingDict a))
          (calls (snd r)) /\
     In (IOHIDManagerOpen (manager a)) (calls (snd r))).
Proof.
  intros D1 D2 D3 r.
  destruct (initialize_branches build a SwitchProController eq_refl)
    as (Hnull & Hdict & Hopen & _).
  fold r in Hnull, Hdict, Hopen.
  pose proof (eqb_other _ _ D1) as E1.
  pose proof (eqb_other _ _ D2) as E2.
  pose proof (eqb_other _ _ D3) as E3.
  destruct (Z.eq_dec (manager a) nullptr) as [Em|Em].
  { destruct (Hnull Em) as (Hf & Hm & Hcalls). rewrite Hf.
    split; [split; [discriminate|intros (N & _); contradiction]|].
    split; [discriminate|].
    split; [intros _ N; contradiction|].
    split; [intros _; split; assumption|].
    intros N; contradiction. }
  destruct (Z.eq_dec (matchingDict a) nullptr) as [Ed|Ed].
  { destruct (Hdict Em Ed) as (Hf & Hm & Hcalls). rewrite Hf.
    split; [split; [discriminate|intros (_ & N & _); contradiction]|].
    split; [discriminate|].
    split; [|split; [intros N; contradiction|intros _ N; contradiction]].
    intros _ _. rewrite Hcalls, Hm, Ed. unfold releases; simpl.
    rewrite Z.eqb_refl. split; reflexivity. }
  specialize (Hopen Em Ed). cbv zeta in Hopen. destruct Hopen as (Hfail & Hok).
  assert (Edict : (matchingDict a =? nullptr) = false)
    by (apply Z.eqb_neq; exact Ed).
  destruct (Z.eq_dec (openResult a) kIOReturnSuccess) as [Eo|Eo].
  - destruct (Hok Eo) as (Ht & Hm & Hcalls). clear Hfail Hok. rewrite Ht.
    split; [split; [intros _; repeat split; assumption|reflexivity]|].
    split; [|split; [discriminate|split; [intros N; contradiction|]]].
    + intros _. split; [exact Hm|]. rewrite Hcalls. unfold releases.
      destruct (negb _ && negb _); simpl; rewrite ?E1, ?E2, ?E3; reflexivity.
    + intros _ _ Hnum. rewrite Hcalls.
      assert (Hno : negb (vendorIDRef a =? nullptr) &&
                    negb (productIDRef a =? nullptr) = false).
      { destruct Hnum as [-> | ->]; simpl; [reflexivity|apply andb_false_r]. }
      rewrite Hno. simpl. split; [|tauto].
      intros Hin. repeat (destruct Hin as [Hin|Hin]; [discriminate Hin|]).
      exact Hin.
  - destruct (Hfail Eo) as (Hf & Hm & Hcalls). clear Hfail Hok. rewrite Hf.
    split; [split; [discriminate|intros (_ & _ & N); contradiction]|].
    split; [discriminate|split; [|split; [intros N; contradiction|]]].
    + intros _ _. rewrite Edict. split; [|exact Hm].
      rewrite Hcalls, releases_app. unfold releases.
      destruct (negb _ && negb _); simpl;
        rewrite ?E1, ?E2, ?E3, ?Z.eqb_refl; reflexivity.
    + intros _ _ Hnum. rewrite Hcalls.
      assert (Hno : negb (vendorIDRef a =? nullptr) &&
                    negb (productIDRef a =? nullptr) = false).
      { destruct Hnum as [-> | ->]; simpl; [reflexivity|apply andb_false_r]. }
      rewrite Hno. simpl. split; [|tauto].
      intros Hin. repeat (destruct Hin as [Hin|Hin]; [discriminate Hin|]).
      exact Hin.
Qed.

(** X13. The outcomes of [initialize] on a new controller, the host's
    objects being distinct.  It returns true exactly when the host gives a
    manager and a dictionary and opens the manager; the manager is then
    kept and not released.  When it returns false after a manager was
    created, the manager is released exactly once; [hidManager] is then
    null when the open failed, but still holds the released manager when
    the dictionary was not created.  When one of the two number objects is
    not created, no device matching is set and the manager is opened all
    the same. *)
Theorem initialize_outcomes (build : Engine.Build) (a : Answers) :
  manager a <> matchingDict a ->
  manager a <> vendorIDRef a ->
  manager a <> productIDRef a ->
  let r := initialize build a SwitchProController in
  (fst r = true <->
     manager a <> nullptr /\ matchingDict a <> nullptr /\
     openResult a = kIOReturnSuccess) /\
  (fst r = true ->
     hidManager (snd r) = manager a /\
     releases (manager a) (calls (snd r)) = 0%nat) /\
  (fst r = false -> manager a <> nullptr ->
     releases (manager a) (calls (snd r)) = 1%nat /\
     hidManager (snd r) =
       if matchingDict a =? nullptr then manager a else nullptr) /\
  (manager a = nullptr ->
     hidManager (snd r) = nullptr /\ calls (snd r) = [IOHIDManagerCreate]) /\
  (manager a <> nullptr -> matchingDict a <> nullptr ->
   vendorIDRef a = nullptr \/ productIDRef a = nullptr ->
     ~ In (IOHIDManagerSetDeviceMatching (manager a) (matchingDict a))
          (calls (snd r)) /\
     In (IOHIDManagerOpen (manager a)) (calls (snd r))).
Proof. exact (initialize_accounting build a). Qed.

Lemma initialize_outcomes_witness :
  let answers := fun dict number open =>
    {| loaded := None; manager := 100; matchingDict := dict;
       vendorIDRef := number; productIDRef := 302; openResult := open |} in
  fst (initialize Engine.PlainCpp (answers 200 301 0) SwitchProController) = true /\
  releases 100 (calls (snd (initialize Engine.PlainCpp (answers 200 301 5)
                              SwitchProController))) = 1%nat /\
  hidManager (snd (initialize Engine.PlainCpp (answers 0 301 0)
                     SwitchProController)) = 100 /\
  ~ In (IOHIDManagerSetDeviceMatching 100 200)
       (calls (snd (initialize Engine.PlainCpp (answers 200 0 0)
                      SwitchProController))).
Proof.
  intros answers. split; [|split; [|split]].
  - apply (initialize_outcomes Engine.PlainCpp (answers 200 301 0));
      [discriminate..|]. repeat split; discriminate.
  - destruct (initialize_outcomes Engine.PlainCpp (answers 200 301 5))
      as (_ & _ & H & _); [discriminate..|].
    apply H; [reflexivity|discriminate].
  - destruct (initialize_outcomes Engine.PlainCpp (answers 0 301 0))
      as (_ & _ & H & _); [discriminate..|].
    destruct H as [_ H]; [reflexivity|discriminate|exact H].
  - destruct (initialize_outcomes Engine.PlainCpp (answers 200 0 0))
      as (_ & _ & _ & _ & H); [discriminate..|].
    apply H; [discriminate|discriminate|left; reflexivity].
Defined.

(** ** stop and the destructor *)

Lemma stop_fields (c : Controller) :
  let c' := stop c in
  hidManager c' = nullptr /\
  isRunning c' = false /\
  driver c' = Neural.stop (driver c) /\
  neuralEngine c' = neuralEngine c /\
  said c' = said c /\
  inputThread_joinable c' =
    (if isRunning c then false else inputThread_joinable c) /\
  calls c' =
    calls c ++
    (if isRunning c
     then (if hidManager c =? nullptr then [] else [CFRunLoopStop]) ++
          (if inputThread_joinable c then [ThreadJoin] else [])
     else []) ++
    (if hidManager c =? nullptr then []
     else [IOHIDManagerClose (hidManager c); CFRelease (hidManager c)]).
Proof.
  intros c'. subst c'. unfold stop.
  destruct (isRunning c) eqn:Er, (inputThread_joinable c) eqn:Ej,
    (hidManager c =? nullptr) eqn:Em;
    repeat (progress (simpl; rewrite ?Er, ?Ej, ?Em));
    rewrite ?app_nil_r, <- ?app_assoc; simpl;
    repeat split; try reflexivity;
    apply Z.eqb_eq; exact Em.
Qed.

(** X14. [stop] leaves no manager, no running flag and processing
    disabled, and closes and releases the manager it held exactly once;
    a second [stop] (the destructor after [main]'s own call) changes
    nothing, so the manager is not released again.  But after an
    [initialize] that failed on the dictionary, [hidManager] still holds
    the manager [initialize] released: [stop], which the destructor runs,
    closes it and releases it a second time. *)
Theorem stop_releases_the_manager (build : Engine.Build) (a : Answers)
    (c : Controller) :
  hidManager (stop c) = nullptr /\
  isRunning (stop c) = false /\
  processingEnabled (driver (stop c)) = false /\
  (hidManager c <> nullptr ->
     releases (hidManager c) (calls (stop c)) =
       S (releases (hidManager c) (calls c)) /\
     closes (hidManager c) (calls (stop c)) =
       S (closes (hidManager c) (calls c))) /\
  stop (stop c) = stop c /\
  (manager a <> nullptr -> matchingDict a = nullptr ->
     let failed := snd (initialize build a SwitchProController) in
     fst (initialize build a SwitchProController) = false /\
     calls (stop failed) =
       [ IOHIDManagerCreate; CFDictionaryCreateMutable;
         CFRelease (manager a);
         IOHIDManagerClose (manager a); CFRelease (manager a) ] /\
     releases (manager a) (calls (stop failed)) = 2%nat).
Proof.
  destruct (stop_fields c) as (Hm & Hr & Hd & He & Hs & Hj & Hcalls).
  split; [exact Hm|]. split; [exact Hr|].
  split; [rewrite Hd; apply (enableNeuralProcessing_fields false)|].
  split; [|split].
  - intros Hne. rewrite Hcalls, !releases_app, !closes_app.
    destruct (Z.eqb_spec (hidManager c) nullptr); [contradiction|].
    unfold releases, closes.
    destruct (isRunning c), (inputThread_joinable c); simpl;
      rewrite Z.eqb_refl; simpl; split; lia.
  - destruct (stop_fields (stop c)) as (Hm' & Hr' & Hd' & He' & Hs' & Hj' & Hc').
    rewrite Hm, Hr in Hc'. simpl in Hc'. rewrite !app_nil_r in Hc'.
    rewrite Hr in Hj'.
    assert (Hdd : driver (stop (stop c)) = driver (stop c)).
    { rewrite Hd', Hd. unfold Neural.stop.
      unfold enableNeuralProcessing.
      destruct (processingThread_joinable (driver c)); reflexivity. }
    destruct (stop (stop c)) as [d2 e2 m2 r2 j2 c2 s2].
    destruct (stop c) as [d1 e1 m1 r1 j1 c1 s1].
    simpl in *. congruence.
  - intros Em Ed failed.
    destruct (initialize_branches build a SwitchProController eq_refl)
      as (_ & Hdict & _ & _ & Hrun & Hjoin).
    destruct (Hdict Em Ed) as (Hf & Hmgr & Hcs). fold failed in Hmgr, Hcs, Hrun, Hjoin.
    split; [exact Hf|].
    destruct (stop_fields failed) as (_ & _ & _ & _ & _ & _ & Hstop).
    rewrite Hrun, Hmgr, Hcs in Hstop. simpl in Hstop.
    destruct (Z.eqb_spec (manager a) nullptr); [contradiction|].
    split; [exact Hstop|].
    rewrite Hstop. unfold releases; simpl. rewrite Z.eqb_refl. reflexivity.
Qed.

Lemma stop_releases_the_manager_witness :
  let a := {| loaded := None; manager := 100; matchingDict := 0;
              vendorIDRef := 301; productIDRef := 302; openResult := 0 |} in
  releases 100
    (calls (stop (snd (initialize Engine.PlainCpp a SwitchProController))))
    = 2%nat /\
  closes 100
    (calls (stop (snd (initialize Engine.PlainCpp a SwitchProController))))
    = 1%nat.
Proof.
  intros a.
  destruct (stop_releases_the_manager Engine.PlainCpp a SwitchProController)
    as (_ & _ & _ & _ & _ & H).
  destruct (H ltac:(discriminate) eq_refl) as (_ & Hcalls & Hrel).
  split; [exact Hrel|]. rewrite Hcalls. reflexivity.
Defined.

(** ** start *)

Lemma initialize_keeps_threads (build : Engine.Build) (a : Answers)
    (c : Controller) :
  isRunning (snd (initialize build a c)) = isRunning c /\
  inputThread_joinable (snd (initialize build a c)) = inputThread_joinable c.
Proof.
  unfold initialize.
  destruct (Engine.initialize build (loaded a)) as [processor ready].
  cbn [hidManager set_hidManager call say set_neuralEngine].
  destruct (manager a =? nullptr), (matchingDict a =? nullptr),
    (negb (openResult a =? kIOReturnSuccess)),
    (negb (vendorIDRef a =? nullptr) && negb (productIDRef a =? nullptr)),
    (negb ready); split; reflexivity.
Qed.

(** X15. [start] never reaches [std::terminate]: after any sequence of
    [initialize], [start], [stop] and driver events on a new controller,
    [inputThread] is joinable only while [isRunning] is set, so [start]
    never assigns to a joinable thread.  [start] does nothing on a
    controller without a manager, in particular before [initialize] and
    after [stop] (a stopped driver is not restarted by [start]), and a
    second [start] does nothing. *)
Theorem start_never_terminates host (build : Engine.Build)
    (ops : list Operation) (c : Controller) :
  (exists c',
     fold_left (operate host build) ops (Some SwitchProController) = Some c' /\
     (inputThread_joinable c' = true -> isRunning c' = true)) /\
  (hidManager c = nullptr -> start c = Some c) /\
  start (stop c) = Some (stop c) /\
  (forall c', start c = Some c' -> start c' = Some c').
Proof.
  split; [|split; [|split]].
  - assert (H : forall c0 : Controller,
              (inputThread_joinable c0 = true -> isRunning c0 = true) ->
              exists c',
                fold_left (operate host build) ops (Some c0) = Some c' /\
                (inputThread_joinable c' = true -> isRunning c' = true)).
    { induction ops as [|op ops IH]; intros c0 H0; simpl.
      - exists c0. split; [reflexivity|exact H0].
      - destruct op as [a| | |e]; simpl.
        + apply IH. destruct (initialize_keeps_threads build a c0) as [-> ->].
          exact H0.
        + unfold start.
          destruct (isRunning c0) eqn:Er; simpl; [apply IH; rewrite Er; auto|].
          destruct (hidManager c0 =? nullptr); simpl;
            [apply IH; rewrite Er; exact H0|].
          destruct (inputThread_joinable c0) eqn:Ej.
          * specialize (H0 eq_refl). discriminate H0.
          * apply IH. reflexivity.
        + apply IH. destruct (stop_fields c0) as (_ & _ & _ & _ & _ & -> & _).
          destruct (isRunning c0) eqn:Er; [discriminate|].
          intros Hj. specialize (H0 Hj). discriminate H0.
        + apply IH. exact H0. }
    apply H. discriminate.
  - intros Hm. unfold start. rewrite Hm. simpl. rewrite andb_false_r.
    reflexivity.
  - unfold start. destruct (stop_fields c) as (-> & _). simpl.
    rewrite andb_false_r. reflexivity.
  - intros c' Hs. unfold start in Hs.
    destruct (negb (isRunning c) && negb (hidManager c =? nullptr)) eqn:E.
    + destruct (inputThread_joinable c); [discriminate|].
      injection Hs as <-. reflexivity.
    + injection Hs as <-. unfold start. rewrite E. reflexivity.
Qed.

Lemma start_never_terminates_witness :
  let a := {| loaded := None; manager := 100; matchingDict := 200;
              vendorIDRef := 301; productIDRef := 302; openResult := 0 |} in
  let c := snd (initialize Engine.PlainCpp a SwitchProController) in
  start SwitchProController = Some SwitchProController /\
  (exists c', start c = Some c' /\ isRunning c' = true /\ start c' = Some c').
Proof.
  intros a c. split.
  - apply (start_never_terminates (fun _ _ => 0) Engine.PlainCpp []
             SwitchProController). reflexivity.
  - eexists. split; [reflexivity|]. split; [reflexivity|].
    apply (start_never_terminates (fun _ _ => 0) Engine.PlainCpp [] c).
    reflexivity.
Defined.

(** ** main *)

Lemma choose_lifecycle host (choice : Z) (m : Main) :
  let c := controller m in
  let c' := controller (choose host choice m) in
  hidManager c' = hidManager c /\ isRunning c' = isRunning c /\
  inputThread_joinable c' = inputThread_joinable c /\ calls c' = calls c /\
  neuralEngine c' = neuralEngine c.
Proof.
  unfold choose.
  repeat match goal with
         | |- context [if ?b then _ else _] => destruct b
         end; simpl; repeat split.
Qed.

Lemma happen_lifecycle host build (m : Main) (h : Happening) :
  let c := controller m in
  let c' := controller (happen host build m h) in
  hidManager c' = hidManager c /\ isRunning c' = isRunning c /\
  inputThread_joinable c' = inputThread_joinable c /\ calls c' = calls c /\
  neuralEngine c' = neuralEngine c.
Proof.
  destruct h as [choice|e]; [apply choose_lifecycle|]. simpl. repeat split.
Qed.

Lemma menu_lifecycle host build (l : list Happening) :
  forall m,
  (has_exit l = false -> menu host build m l = None) /\
  (has_exit l = true ->
     exists m', menu host build m l = Some m' /\
       hidManager (controller m') = hidManager (controller m) /\
       isRunning (controller m') = isRunning (controller m) /\
       inputThread_joinable (controller m') =
         inputThread_joinable (controller m) /\
       calls (controller m') = calls (controller m)).
Proof.
  induction l as [|h l IH]; intros m.
  - split; [reflexivity|discriminate].
  - destruct h as [choice|e]; simpl.
    + destruct (choose_lifecycle host choice m) as (H1 & H2 & H3 & H4 & _).
      destruct (choice =? 7); simpl.
      * split; [discriminate|]. intros _. eexists. split; [reflexivity|].
        repeat split; assumption.
      * destruct (IH (choose host choice m)) as [Hn Hs].
        split; [exact Hn|]. intros He.
        destruct (Hs He) as (m' & Hm & G1 & G2 & G3 & G4).
        exists m'. split; [exact Hm|]. repeat split; congruence.
    + destruct (IH (happen host build m (Callback e))) as [Hn Hs].
      split; [exact Hn|]. intros He.
      destruct (Hs He) as (m' & Hm & G1 & G2 & G3 & G4).
      exists m'. split; [exact Hm|]. simpl in *. repeat split; assumption.
Qed.

Lemma filter_none {T : Type} (f : T -> bool) (l : list T) :
  (forall h, In h l -> f h = false) -> filter f l = [].
Proof.
  induction l as [|h t IH]; intros Hf; [reflexivity|].
  simpl. rewrite (Hf h) by (left; reflexivity).
  apply IH. intros h' Hin. apply Hf. right. exact Hin.
Qed.

(** X16. [main], the host's objects being distinct.  When [initialize]
    fails it exits with -1, and its destructor has then released the
    manager twice if the failure was the dictionary, once if it was the
    open.  When [initialize] succeeds, [main] ends exactly when the user
    enters 7; it then exits with 0, having created and joined the input
    thread once and closed and released the manager exactly once, although
    [stop] runs twice (the call of [main] and the destructor). *)
Theorem main_releases_the_manager host (build : Engine.Build) (a : Answers)
    (l : list Happening) :
  manager a <> nullptr ->
  manager a <> matchingDict a ->
  manager a <> vendorIDRef a ->
  manager a <> productIDRef a ->
  let ok := fst (initialize build a SwitchProController) in
  (ok = false ->
     exists c, main host build a l = Some (-1, c) /\
       releases (manager a) (calls c) =
         (if matchingDict a =? nullptr then 2%nat else 1%nat)) /\
  (ok = true ->
     (has_exit l = false -> main host build a l = None) /\
     (has_exit l = true ->
        exists c, main host build a l = Some (0, c) /\
          hidManager c = nullptr /\ isRunning c = false /\
          inputThread_joinable c = false /\
          releases (manager a) (calls c) = 1%nat /\
          closes (manager a) (calls c) = 1%nat /\
          length (filter (fun h => match h with ThreadCreate => true
                                               | _ => false end) (calls c)) = 1%nat /\
          length (filter (fun h => match h with ThreadJoin => true
                                               | _ => false end) (calls c)) = 1%nat)).
Proof.
  intros Em D1 D2 D3 ok.
  destruct (initialize_accounting build a D1 D2 D3)
    as (Hiff & Htrue & Hfalse & _ & _).
  destruct (initialize_branches build a SwitchProController eq_refl)
    as (_ & Hdict & Hopen & _ & Hrun & Hjoin).
  unfold main. fold ok in Hiff, Htrue, Hfalse.
  destruct (initialize build a SwitchProController) as [b c0] eqn:Einit.
  simpl in ok, Hiff, Htrue, Hfalse, Hdict, Hopen, Hrun, Hjoin. subst ok.
  split.
  - intros ->. simpl. eexists. split; [reflexivity|].
    destruct (Hfalse eq_refl Em) as (Hrel & Hmgr).
    destruct (stop_fields (say SayInitializeFailed c0))
      as (_ & _ & _ & _ & _ & _ & Hcalls).
    rewrite Hcalls. cbn [calls say isRunning hidManager inputThread_joinable].
    rewrite Hrun, Hmgr. simpl.
    destruct (Z.eqb_spec (matchingDict a) nullptr) as [Ed|Ed].
    + destruct (Z.eqb_spec (manager a) nullptr); [contradiction|].
      rewrite releases_app, Hrel. unfold releases; simpl.
      rewrite Z.eqb_refl. reflexivity.
    + simpl. rewrite app_nil_r. exact Hrel.
  - intros ->. simpl.
    destruct (Htrue eq_refl) as (Hmgr & Hrel).
    destruct (proj1 Hiff eq_refl) as (_ & Ed & Eo).
    destruct (Hopen Em Ed) as (_ & Hok). destruct (Hok Eo) as (_ & _ & Hcalls).
    assert (Hstart : start c0 =
              Some (set_inputThread true (call ThreadCreate (set_isRunning true c0)))).
    { unfold start. rewrite Hrun, Hjoin, Hmgr. simpl.
      destruct (Z.eqb_spec (manager a) nullptr); [contradiction|reflexivity]. }
    rewrite Hstart.
    set (c1 := set_inputThread true (call ThreadCreate (set_isRunning true c0))).
    set (m0 := {| controller := c1; ledPattern := 1; neuralEnabled := true |}).
    destruct (menu_lifecycle host build l m0) as [Hn Hs].
    split.
    + intros He. rewrite (Hn He). reflexivity.
    + intros He. destruct (Hs He) as (m' & -> & G1 & G2 & G3 & G4).
      eexists. split; [reflexivity|].
      set (c2 := controller m') in *.
      destruct (stop_fields c2) as (S1 & S2 & _ & _ & _ & S6 & S7).
      destruct (stop_fields (say SayStopped (stop c2)))
        as (T1 & T2 & _ & _ & _ & T6 & T7).
      cbn [calls say isRunning hidManager inputThread_joinable] in T6, T7.
      rewrite S1, S2 in T7. rewrite S2, S6, G2 in T6. simpl in T6, T7.
      rewrite !app_nil_r in T7.
      split; [exact T1|]. split; [exact T2|]. split; [exact T6|].
      rewrite T7, S7, G1, G2, G3, G4. simpl.
      rewrite Hmgr.
      destruct (Z.eqb_spec (manager a) nullptr); [contradiction|].
      pose proof (fun f => filter_none f (calls c0)) as Hc0.
      assert (Hin0 : forall h, In h (calls c0) ->
                h <> ThreadCreate /\ h <> ThreadJoin /\
                h <> IOHIDManagerClose (manager a)).
      { intros h Hin. rewrite Hcalls in Hin.
        destruct (negb _ && negb _); simpl in Hin;
          repeat (destruct Hin as [<-|Hin];
                  [repeat split; discriminate|]); contradiction. }
      rewrite !releases_app, !closes_app, Hrel.
      unfold releases, closes. rewrite !filter_app, !length_app.
      rewrite !Hc0.
      * simpl. rewrite !Z.eqb_refl. repeat split; reflexivity.
      * intros h Hin. destruct (Hin0 h Hin) as (_ & N & _).
        destruct h; try reflexivity. contradiction.
      * intros h Hin. destruct (Hin0 h Hin) as (N & _).
        destruct h; try reflexivity. contradiction.
      * intros h Hin. destruct (Hin0 h Hin) as (_ & _ & N).
        destruct h; try reflexivity.
        destruct (Z.eqb_spec manager0 (manager a)) as [->|]; [contradiction|reflexivity].
Qed.

Lemma main_releases_the_manager_witness :
  let host := fun (_ : list HostWrite) (_ : HostWrite) => kIOReturnSuccess in
  let answers := fun dict =>
    {| loaded := None; manager := 100; matchingDict := dict;
       vendorIDRef := 301; productIDRef := 302; openResult := 0 |} in
  let l := [ Choice 3; Callback (DeviceAdded 7); Choice 1; Choice 4;
             Choice 7; Choice 2 ] in
  (exists c, main host Engine.PlainCpp (answers 0) l = Some (-1, c) /\
             releases 100 (calls c) = 2%nat) /\
  (exists c, main host Engine.PlainCpp (answers 200) l = Some (0, c) /\
             releases 100 (calls c) = 1%nat) /\
  main host Engine.PlainCpp (answers 200) [Choice 3; Choice 1] = None.
Proof.
  intros host answers l. split; [|split].
  - destruct (main_releases_the_manager host Engine.PlainCpp (answers 0) l)
      as [H _]; [discriminate..|].
    destruct (H eq_refl) as (c & Hmain & Hrel).
    exists c. split; [exact Hmain|exact Hrel].
  - destruct (main_releases_the_manager host Engine.PlainCpp (answers 200) l)
      as [_ H]; [discriminate..|].
    destruct (H eq_refl) as [_ Hs].
    destruct (Hs eq_refl) as (c & Hmain & _ & _ & _ & Hrel & _).
    exists c. split; [exact Hmain|exact Hrel].
  - destruct (main_releases_the_manager host Engine.PlainCpp (answers 200)
                [Choice 3; Choice 1]) as [_ H]; [discriminate..|].
    destruct (H eq_refl) as [Hn _]. apply Hn. reflexivity.
Defined.

(** ** The menu *)

Lemma next_ledPattern_cycle (j : Z) :
  0 <= j < 4 -> next_ledPattern (2 ^ j) = 2 ^ ((j + 1) mod 4).
Proof.
  intros H.
  assert (E : j = 0 \/ j = 1 \/ j = 2 \/ j = 3) by lia.
  destruct E as [-> | [-> | [-> | ->]]]; reflexivity.
Qed.

Lemma happen_ledPattern host build (m : Main) (h : Happening) :
  ledPattern (happen host build m h) =
    match h with
    | Choice choice =>
        if choice =? 3 then next_ledPattern (ledPattern m) else ledPattern m
    | Callback _ => ledPattern m
    end.
Proof.
  destruct h as [choice|e]; [|reflexivity]. simpl. unfold choose.
  destruct (choice =? 1) eqn:E1;
    [apply Z.eqb_eq in E1; subst; reflexivity|].
  destruct (choice =? 2) eqn:E2;
    [apply Z.eqb_eq in E2; subst; reflexivity|].
  destruct (choice =? 3); [reflexivity|].
  repeat match goal with
         | |- context [if ?b then _ else _] => destruct b
         end; reflexivity.
Qed.

(** X17. The LED pattern of the menu.  It starts at 1, only choice 3
    changes it, and after the user has entered 3 [k] times, whatever else
    happened in between, it is 2 to the power [k mod 4]: the patterns go
    1, 2, 4, 8 and back to 1, so exactly one of the four LEDs is selected
    at any time, and with a device attached choice 3 writes the frame
    [0x01, pattern] for the pattern held before the choice. *)
Theorem menu_led_cycle host (build : Engine.Build) (c : Controller)
    (l : list Happening) :
  let m0 := {| controller := c; ledPattern := 0x01; neuralEnabled := true |} in
  let m := fold_left (happen host build) l m0 in
  ledPattern m = 2 ^ (Z.of_nat (threes l) mod 4) /\
  In (ledPattern m) [1; 2; 4; 8] /\
  (connectedDevice (driver (controller m)) <> nullptr ->
     hostWrites (driver (controller (choose host 3 m))) =
       hostWrites (driver (controller m)) ++
       [ {| hw_device := connectedDevice (driver (controller m));
            hw_reportID := 0x01;
            hw_data := [0x01; ledPattern m] |} ]).
Proof.
  intros m0 m.
  assert (H : forall (l : list Happening) (m1 : Main) (j : nat),
            ledPattern m1 = 2 ^ (Z.of_nat j mod 4) ->
            ledPattern (fold_left (happen host build) l m1) =
              2 ^ (Z.of_nat (j + threes l) mod 4)).
  { clear. intros l. induction l as [|h l IH]; intros m1 j Hj.
    - simpl. rewrite Nat.add_0_r. exact Hj.
    - simpl fold_left.
      assert (Hstep : ledPattern (happen host build m1 h) =
                2 ^ (Z.of_nat (j + threes [h]) mod 4)).
      { rewrite happen_ledPattern. unfold threes.
        destruct h as [choice|e]; simpl;
          [|rewrite Nat.add_0_r; exact Hj].
        destruct (choice =? 3); simpl; [|rewrite Nat.add_0_r; exact Hj].
        rewrite Hj, next_ledPattern_cycle
          by (apply Z.mod_pos_bound; lia).
        f_equal. rewrite Nat2Z.inj_add. simpl Z.of_nat.
        rewrite Zplus_mod_idemp_l. reflexivity. }
      rewrite (IH _ _ Hstep). f_equal. f_equal. f_equal.
      unfold threes. simpl.
      destruct h as [choice|e]; simpl; [|lia].
      destruct (choice =? 3); simpl; lia. }
  assert (Hm : ledPattern m = 2 ^ (Z.of_nat (threes l) mod 4)).
  { apply (H l m0 0%nat). reflexivity. }
  assert (Hin : In (ledPattern m) [1; 2; 4; 8]).
  { rewrite Hm.
    pose proof (Z.mod_pos_bound (Z.of_nat (threes l)) 4 ltac:(lia)) as Hb.
    assert (E : Z.of_nat (threes l) mod 4 = 0 \/ Z.of_nat (threes l) mod 4 = 1 \/
                Z.of_nat (threes l) mod 4 = 2 \/ Z.of_nat (threes l) mod 4 = 3)
      by lia.
    destruct E as [-> | [-> | [-> | ->]]]; simpl; tauto. }
  split; [exact Hm|]. split; [exact Hin|].
  intros Hdev. unfold choose. simpl.
  destruct (setLEDPattern_fields host (ledPattern m) (driver (controller m)))
    as (Hw & _).
  rewrite Hw.
  destruct (Z.eqb_spec (connectedDevice (driver (controller m))) nullptr);
    [contradiction|].
  f_equal. f_equal. f_equal.
  destruct Hin as [<- | [<- | [<- | [<- | []]]]]; reflexivity.
Qed.



Lemma menu_led_cycle_witness :
  let host := fun (_ : list HostWrite) (_ : HostWrite) => kIOReturnSuccess in
  let l := [ Choice 3; Callback (DeviceAdded 7); Choice 3; Choice 1;
             Choice 3; Choice 3; Choice 3 ] in
  let m := fold_left (happen host Engine.PlainCpp) l
             {| controller := SwitchProController; ledPattern := 0x01;
                neuralEnabled := true |} in
  ledPattern m = 2 /\
  hostWrites (driver (controller (choose host 3 m))) =
    hostWrites (driver (controller m)) ++
    [ {| hw_device := 7; hw_reportID := 0x01; hw_data := [0x01; 0x02] |} ].
Proof.
  intros host l m.
  destruct (menu_led_cycle host Engine.PlainCpp SwitchProController l)
    as (Hled & _ & Hw).
  fold m in Hled, Hw. split; [exact Hled|].
  rewrite Hw by (vm_compute; discriminate).
  rewrite Hled. reflexivity.
Defined.
